(** * x402 weather API: the upstream weather client and the route helpers

    A shallow embedding of [weather.py] and of the location helper and the
    pricing table of [main.py].  Values decoded from upstream JSON are kept
    dynamically typed, as in Python; every subscript, method call and
    exception clause of the source is written out with the exception it can
    raise. *)

From Stdlib Require Import ZArith List String Ascii Bool Lia.
From Stdlib Require Import Decimal DecimalString SpecFloat.
From Stdlib Require DecimalZ.
Import ListNotations.

Local Open Scope Z_scope.
Local Open Scope list_scope.
Local Open Scope string_scope.

(** ** Python values obtained from [json.loads]

    A JSON number decodes to an [int] or to a [float]; floats are kept as
    [spec_float] (sign, mantissa, exponent, and the special values).  A string
    is a sequence of characters, one [ascii] per code point.  [PDict kvs]
    stands for the dict built from the pairs [kvs] in order: a later pair with
    the same key overwrites an earlier one, as [json.loads] does. *)

#[local] Set Warnings "-register-all".

Inductive pyval : Type :=
| PNone
| PBool (b : bool)
| PInt (z : Z)
| PFloat (f : spec_float)
| PStr (s : string)
| PList (l : list pyval)
| PDict (kvs : list (string * pyval)).

(** ** Exceptions *)

(** The key a [KeyError] carries. *)
Inductive pykey : Type :=
| KStr (s : string)
| KInt (i : nat).

(** Built-in exceptions raised by the operations the source uses.
    [JSONDecodeError] is a [ValueError]. *)
Inductive builtin_exc : Type :=
| KeyError (k : pykey)
| TypeError
| IndexError
| AttributeError
| JSONDecodeError.

(** The exception classes of httpx that a request can raise.  All but
    [InvalidURL] derive from [httpx.HTTPError]; the four timeouts derive from
    [httpx.TimeoutException]. *)
Inductive httpx_exc : Type :=
| ConnectTimeout | ReadTimeout | WriteTimeout | PoolTimeout
| ConnectError | ReadError | WriteError | CloseError
| LocalProtocolError | RemoteProtocolError
| ProxyError | UnsupportedProtocol
| DecodingError | TooManyRedirects
| InvalidURL.

Definition is_TimeoutException (e : httpx_exc) : bool :=
  match e with
  | ConnectTimeout | ReadTimeout | WriteTimeout | PoolTimeout => true
  | _ => false
  end.

Definition is_TransportError (e : httpx_exc) : bool :=
  match e with
  | ConnectTimeout | ReadTimeout | WriteTimeout | PoolTimeout
  | ConnectError | ReadError | WriteError | CloseError
  | LocalProtocolError | RemoteProtocolError
  | ProxyError | UnsupportedProtocol => true
  | _ => false
  end.

Definition is_HTTPError (e : httpx_exc) : bool :=
  match e with
  | InvalidURL => false
  | _ => true
  end.

(** The detail of an [HTTPException]: a fixed text, or a prefix followed by
    [str(exc)] of a caught built-in exception.  The wording of [str(exc)]
    depends on the interpreter version, so the exception itself is kept. *)
Inductive detail : Type :=
| Text (s : string)
| TextOf (prefix : string) (exc : builtin_exc).

Inductive exn : Type :=
| HTTPException (status_code : Z) (d : detail)
| Builtin (e : builtin_exc)
| Httpx (e : httpx_exc).

Inductive result (A : Type) : Type :=
| Ok (a : A)
| Raise (e : exn).
Arguments Ok {A} a.
Arguments Raise {A} e.

Definition rbind {A B} (r : result A) (k : A -> result B) : result B :=
  match r with
  | Ok a => k a
  | Raise e => Raise e
  end.

(** ** Operations on Python values *)

(** [dict(kvs).get(k)]: the last pair with key [k] wins. *)
Fixpoint dict_lookup (k : string) (kvs : list (string * pyval)) : option pyval :=
  match kvs with
  | [] => None
  | (k', v) :: rest =>
      match dict_lookup k rest with
      | Some v' => Some v'
      | None => if String.eqb k k' then Some v else None
      end
  end.

(** [len(dict(kvs))]: the number of distinct keys. *)
Definition dict_len (kvs : list (string * pyval)) : nat :=
  List.length (nodup string_dec (map fst kvs)).

(** [v[k]] for a string key [k]. *)
Definition getitem_str (v : pyval) (k : string) : result pyval :=
  match v with
  | PDict kvs =>
      match dict_lookup k kvs with
      | Some x => Ok x
      | None => Raise (Builtin (KeyError (KStr k)))
      end
  | _ => Raise (Builtin TypeError)
  end.

Fixpoint string_nth (s : string) (i : nat) : option ascii :=
  match s, i with
  | EmptyString, _ => None
  | String c _, O => Some c
  | String _ r, S j => string_nth r j
  end.

(** [v[i]] for an integer index [i >= 0] (both call sites index with [0] or
    with a value of [range]). *)
Definition getitem_int (v : pyval) (i : nat) : result pyval :=
  match v with
  | PList l =>
      match nth_error l i with
      | Some x => Ok x
      | None => Raise (Builtin IndexError)
      end
  | PStr s =>
      match string_nth s i with
      | Some c => Ok (PStr (String c EmptyString))
      | None => Raise (Builtin IndexError)
      end
  | PDict kvs => Raise (Builtin (KeyError (KInt i)))
  | _ => Raise (Builtin TypeError)
  end.

(** [v.get(k, default)]; only a dict has the method. *)
Definition get_method (v : pyval) (k : string) (default : pyval) : result pyval :=
  match v with
  | PDict kvs =>
      match dict_lookup k kvs with
      | Some x => Ok x
      | None => Ok default
      end
  | _ => Raise (Builtin AttributeError)
  end.

(** [len(v)]. *)
Definition py_len (v : pyval) : result nat :=
  match v with
  | PStr s => Ok (String.length s)
  | PList l => Ok (List.length l)
  | PDict kvs => Ok (dict_len kvs)
  | _ => Raise (Builtin TypeError)
  end.

(** Truth value of [v], as tested by [not v] and [v or w]. *)
Definition truthy (v : pyval) : bool :=
  match v with
  | PNone => false
  | PBool b => b
  | PInt z => negb (Z.eqb z 0)
  | PFloat (S754_zero _) => false
  | PFloat _ => true
  | PStr s => negb (String.eqb s "")
  | PList l => match l with [] => false | _ => true end
  | PDict kvs => match kvs with [] => false | _ => true end
  end.

(** The integer a float is equal to, if any: a float key finds the int key
    it compares (and hashes) equal to. *)
Definition float_int (f : spec_float) : option Z :=
  match f with
  | S754_zero _ => Some 0
  | S754_finite s m e =>
      let sgn := if s then (-1) else 1 in
      if Z.leb 0 e then Some (sgn * (Z.pos m * 2 ^ e))
      else if Z.eqb (Z.pos m mod 2 ^ (- e)) 0 then Some (sgn * (Z.pos m / 2 ^ (- e)))
      else None
  | _ => None
  end.

(** [str(z)] for an int. *)
Definition str_int (z : Z) : string := NilZero.string_of_int (Z.to_int z).

(** ** The WMO code table *)

Definition WMO_CODES : list (Z * string) :=
  [ (0, "Clear sky");
    (1, "Mainly clear");
    (2, "Partly cloudy");
    (3, "Overcast");
    (45, "Fog");
    (48, "Depositing rime fog");
    (51, "Light drizzle");
    (53, "Moderate drizzle");
    (55, "Dense drizzle");
    (56, "Light freezing drizzle");
    (57, "Dense freezing drizzle");
    (61, "Slight rain");
    (63, "Moderate rain");
    (65, "Heavy rain");
    (66, "Light freezing rain");
    (67, "Heavy freezing rain");
    (71, "Slight snow fall");
    (73, "Moderate snow fall");
    (75, "Heavy snow fall");
    (77, "Snow grains");
    (80, "Slight rain showers");
    (81, "Moderate rain showers");
    (82, "Violent rain showers");
    (85, "Slight snow showers");
    (86, "Heavy snow showers");
    (95, "Thunderstorm");
    (96, "Thunderstorm with slight hail");
    (99, "Thunderstorm with heavy hail") ].

Fixpoint table_get (code : Z) (t : list (Z * string)) : option string :=
  match t with
  | [] => None
  | (c, s) :: rest => if Z.eqb code c then Some s else table_get code rest
  end.

(** Lists and dicts are unhashable: using one as a key raises [TypeError]. *)
Definition hashable (v : pyval) : bool :=
  match v with
  | PList _ | PDict _ => false
  | _ => true
  end.

(** The int key a hashable value is equal to: [True == 1], [False == 0],
    [2.0 == 2]. *)
Definition int_key (v : pyval) : option Z :=
  match v with
  | PInt z => Some z
  | PBool b => Some (if b then 1 else 0)
  | PFloat f => float_int f
  | _ => None
  end.

(** ** Result shapes

    The dict literals the three operations return, one record per shape;
    every field but [condition] holds the upstream value unchanged. *)

Record Location : Type := {
  name : pyval;
  country : pyval;
  latitude : pyval;
  longitude : pyval
}.

Module Current.
Record t : Type := {
  temperature_c : pyval;
  feels_like_c : pyval;
  humidity_pct : pyval;
  wind_speed_kmh : pyval;
  wind_direction_deg : pyval;
  precipitation_mm : pyval;
  condition : string;
  weather_code : pyval;
  observation_time : pyval
}.
End Current.

Module Day.
Record t : Type := {
  date : pyval;
  condition : string;
  weather_code : pyval;
  temp_max_c : pyval;
  temp_min_c : pyval;
  precipitation_mm : pyval;
  precipitation_probability_pct : pyval;
  wind_max_kmh : pyval
}.
End Day.

(** ** Pricing and HTTP types *)

Record PaymentOption : Type := {
  scheme : string;
  pay_to : string;
  price : string;
  network : string
}.

Record RouteConfig : Type := {
  accepts : list PaymentOption;
  mime_type : string;
  description : string;
  extensions : pyval
}.

(** [routes.get(key)]. *)
Fixpoint route_get (key : string) (t : list (string * RouteConfig)) : option RouteConfig :=
  match t with
  | [] => None
  | (k, rc) :: rest => if String.eqb key k then Some rc else route_get key rest
  end.

(** An inbound request: method, path, raw query pairs and the payment proof
    header when one is sent. *)
Record http_request : Type := {
  method : string;
  path : string;
  query : list (string * string);
  payment_proof : option string
}.

Inductive response_body : Type :=
| Json (v : pyval)
| PaymentRequired (options : list PaymentOption) (info : string) (ext : pyval).

Record http_response : Type := {
  status : Z;
  content_type : string;
  body : response_body
}.

(** Modelled from the spec: the facilitator's answer to a verification. *)
Inductive verdict : Type :=
| Valid
| Invalid
| Unreachable.

(** Modelled from the spec: only a positive answer of the facilitator
    counts; an unreachable facilitator is treated as a rejection. *)
Definition is_valid (v : verdict) : bool :=
  match v with
  | Valid => true
  | _ => false
  end.

(** Modelled from the spec: the decision of the payment gate for a request. *)
Inductive Decision : Type :=
| Free
| Challenge (pricing : RouteConfig)
| Proceed (matched : PaymentOption).

(** What a handler call ends in: the response model it returns, an exception
    raised on the way, or pydantic's [ValidationError] raised while the
    response model is constructed. *)
Inductive handled (A : Type) : Type :=
| Returned (a : A)
| Raised (e : exn)
| ValidationError.
Arguments Returned {A} a.
Arguments Raised {A} e.
Arguments ValidationError {A}.

(** The seven parallel arrays of a daily object. *)
Record daily_arrays : Type := {
  a_time : list pyval;
  a_weather_code : list pyval;
  a_temperature_2m_max : list pyval;
  a_temperature_2m_min : list pyval;
  a_precipitation_sum : list pyval;
  a_precipitation_probability_max : list pyval;
  a_wind_speed_10m_max : list pyval
}.

Definition all_arrays (a : daily_arrays) : list (list pyval) :=
  [a_time a; a_weather_code a; a_temperature_2m_max a; a_temperature_2m_min a;
   a_precipitation_sum a; a_precipitation_probability_max a; a_wind_speed_10m_max a].

(** ** The outbound client

    A request is the URL and the query parameters; the upstream either
    answers with a status and a body or the call fails with an httpx
    exception.  [json_body] is what [resp.json()] decodes the body to, [None]
    when the body is not JSON. *)

Record request : Type := {
  url : string;
  params : list (string * pyval)
}.

Record Response : Type := {
  status_code : Z;
  json_body : option pyval
}.

Inductive outcome : Type :=
| Responds (r : Response)
| Fails (e : httpx_exc).

(** The requests sent so far, oldest first. *)
Definition world : Type := list request.

(** Computations that may send requests and may raise. *)
Definition M (A : Type) : Type := world -> result A * world.

(** An ASGI application: every request is answered; exceptions of a handler
    have been rendered as responses by the framework. *)
Definition App : Type := http_request -> world -> http_response * world.

Definition ret {A} (a : A) : M A := fun w => (Ok a, w).
Definition raise {A} (e : exn) : M A := fun w => (Raise e, w).
Definition lift {A} (r : result A) : M A := fun w => (r, w).

Definition bind {A B} (m : M A) (k : A -> M B) : M B :=
  fun w =>
    match m w with
    | (Ok a, w') => k a w'
    | (Raise e, w') => (Raise e, w')
    end.

(** [try: body / except ...]: [handler e] is the first clause that matches
    [e], [None] when no clause does and [e] propagates. *)
Definition try_except {A} (body : M A) (handler : exn -> option (M A)) : M A :=
  fun w =>
    match body w with
    | (Ok a, w') => (Ok a, w')
    | (Raise e, w') =>
        match handler e with
        | Some h => h w'
        | None => (Raise e, w')
        end
    end.

Declare Scope monad_scope.
Delimit Scope monad_scope with monad.
Notation "x <- c ;; k" := (bind c (fun x => k))
  (at level 100, c at next level, right associativity) : monad_scope.
Notation "'let*' x ':=' c 'in' k" := (rbind c (fun x => k))
  (at level 100, x name, c at next level, right associativity) : monad_scope.
Local Open Scope monad_scope.

Definition GEOCODING_URL : string := "https://geocoding-api.open-meteo.com/v1/search".
Definition FORECAST_URL : string := "https://api.open-meteo.com/v1/forecast".

Definition CURRENT_VARS : string :=
  "temperature_2m,relative_humidity_2m,apparent_temperature,"
  ++ "weather_code,wind_speed_10m,wind_direction_10m,precipitation".
Definition DAILY_VARS : string :=
  "weather_code,temperature_2m_max,temperature_2m_min,"
  ++ "precipitation_sum,precipitation_probability_max,wind_speed_10m_max".

(** The [params] dicts of the three requests. *)
Definition geocode_params (city : string) : list (string * pyval) :=
  [("name", PStr city); ("count", PInt 1);
   ("language", PStr "en"); ("format", PStr "json")].

Definition current_params (lat lon : pyval) : list (string * pyval) :=
  [("latitude", lat); ("longitude", lon); ("current", PStr CURRENT_VARS)].

Definition forecast_params (lat lon : pyval) (days : Z) : list (string * pyval) :=
  [("latitude", lat); ("longitude", lon);
   ("daily", PStr DAILY_VARS); ("forecast_days", PInt days)].

(** [resp.json()]. *)
Definition resp_json (resp : Response) : result pyval :=
  match json_body resp with
  | Some v => Ok v
  | None => Raise (Builtin JSONDecodeError)
  end.

(** [except httpx.TimeoutException: raise HTTPException(504, ...)] then
    [except httpx.HTTPError: raise HTTPException(502, ...)]. *)
Definition upstream_handler {A} (e : exn) : option (M A) :=
  match e with
  | Httpx h =>
      if is_TimeoutException h then
        Some (raise (HTTPException 504 (Text "Weather data source timeout")))
      else if is_HTTPError h then
        Some (raise (HTTPException 502 (Text "Weather data source unavailable")))
      else None
  | _ => None
  end.

(** [except (KeyError, TypeError, IndexError) as exc:
     raise HTTPException(502, f"Unexpected weather data format: {exc}")]. *)
Definition format_handler {A} (e : exn) : option (M A) :=
  match e with
  | Builtin b =>
      match b with
      | KeyError _ | TypeError | IndexError =>
          Some (raise (HTTPException 502 (TextOf "Unexpected weather data format: " b)))
      | _ => None
      end
  | _ => None
  end.

Section Client.

(** [repr] of a float (the shortest decimal that reads back), as used by
    f-strings; taken as given. *)
Variable float_repr : spec_float -> string.

(** The text [f"{v}"] interpolates for a hashable value. *)
Definition format_value (v : pyval) : string :=
  match v with
  | PNone => "None"
  | PBool true => "True"
  | PBool false => "False"
  | PInt z => str_int z
  | PFloat f => float_repr f
  | PStr s => s
  | _ => ""
  end.

(** [WMO_CODES.get(code, f"Unknown ({code})")].  Formatting the default never
    raises; the lookup raises [TypeError] for an unhashable key. *)
Definition describe_weather_code (code : pyval) : result string :=
  if hashable code then
    match int_key code with
    | Some z =>
        match table_get z WMO_CODES with
        | Some s => Ok s
        | None => Ok ("Unknown (" ++ format_value code ++ ")")
        end
    | None => Ok ("Unknown (" ++ format_value code ++ ")")
    end
  else Raise (Builtin TypeError).


(** The upstream: its answer to a request may depend on the requests sent
    before. *)
Variable upstream : world -> request -> outcome.

(** [await _client.get(url, params=params)]. *)
Definition client_get (u : string) (ps : list (string * pyval)) : M Response :=
  fun w =>
    let rq := {| url := u; params := ps |} in
    match upstream w rq with
    | Responds r => (Ok r, (w ++ [rq])%list)
    | Fails e => (Raise (Httpx e), (w ++ [rq])%list)
    end.

Definition geocode (city : string) : M Location :=
  resp <- try_except (client_get GEOCODING_URL (geocode_params city))
            upstream_handler ;;
  if negb (Z.eqb (status_code resp) 200) then
    raise (HTTPException 502 (Text "Weather data source unavailable"))
  else
    data <- lift (resp_json resp) ;;
    results <- lift (get_method data "results" PNone) ;;
    if negb (truthy results) then
      raise (HTTPException 404 (Text ("City not found: " ++ city)))
    else
      hit <- lift (getitem_int results 0) ;;
      name_ <- lift (getitem_str hit "name") ;;
      country_ <- lift (get_method hit "country" (PStr "")) ;;
      latitude_ <- lift (getitem_str hit "latitude") ;;
      longitude_ <- lift (getitem_str hit "longitude") ;;
      ret {| name := name_; country := country_;
             latitude := latitude_; longitude := longitude_ |}.

(** The body of the [try] block of [get_current]. *)
Definition current_fields (data : pyval) : result Current.t :=
  let* cur := getitem_str data "current" in
  let* code := getitem_str cur "weather_code" in
  let* temperature := getitem_str cur "temperature_2m" in
  let* feels_like := getitem_str cur "apparent_temperature" in
  let* humidity := getitem_str cur "relative_humidity_2m" in
  let* wind_speed := getitem_str cur "wind_speed_10m" in
  let* wind_direction := getitem_str cur "wind_direction_10m" in
  let* precipitation := getitem_str cur "precipitation" in
  let* condition_ := describe_weather_code code in
  let* time := getitem_str cur "time" in
  Ok {| Current.temperature_c := temperature;
        Current.feels_like_c := feels_like;
        Current.humidity_pct := humidity;
        Current.wind_speed_kmh := wind_speed;
        Current.wind_direction_deg := wind_direction;
        Current.precipitation_mm := precipitation;
        Current.condition := condition_;
        Current.weather_code := code;
        Current.observation_time := time |}.

Definition get_current (lat lon : pyval) : M Current.t :=
  resp <- try_except (client_get FORECAST_URL (current_params lat lon))
            upstream_handler ;;
  if negb (Z.eqb (status_code resp) 200) then
    raise (HTTPException 502 (Text "Weather data source unavailable"))
  else
    data <- lift (resp_json resp) ;;
    try_except (lift (current_fields data)) format_handler.

(** [daily[key][i]]. *)
Definition daily_at (daily : pyval) (key : string) (i : nat) : result pyval :=
  let* arr := getitem_str daily key in
  getitem_int arr i.

(** One iteration of the loop of [get_forecast]: the entry for index [i]. *)
Definition forecast_entry (daily : pyval) (i : nat) : result Day.t :=
  let* code := daily_at daily "weather_code" i in
  let* date_ := daily_at daily "time" i in
  let* condition_ := describe_weather_code code in
  let* temp_max := daily_at daily "temperature_2m_max" i in
  let* temp_min := daily_at daily "temperature_2m_min" i in
  let* precipitation := daily_at daily "precipitation_sum" i in
  let* probability := daily_at daily "precipitation_probability_max" i in
  let* wind_max := daily_at daily "wind_speed_10m_max" i in
  Ok {| Day.date := date_;
        Day.condition := condition_;
        Day.weather_code := code;
        Day.temp_max_c := temp_max;
        Day.temp_min_c := temp_min;
        Day.precipitation_mm := precipitation;
        Day.precipitation_probability_pct := probability;
        Day.wind_max_kmh := wind_max |}.

(** [for i in range(...): ... result.append({...})], over the indices still
    to visit. *)
Fixpoint forecast_loop (daily : pyval) (indices : list nat) (acc : list Day.t)
  : result (list Day.t) :=
  match indices with
  | [] => Ok acc
  | i :: rest =>
      let* entry := forecast_entry daily i in
      forecast_loop daily rest (acc ++ [entry])%list
  end.

(** The body of the [try] block of [get_forecast]. *)
Definition forecast_days (data : pyval) : result (list Day.t) :=
  let* daily := getitem_str data "daily" in
  let* time := getitem_str daily "time" in
  let* n := py_len time in
  forecast_loop daily (seq 0 n) [].

Definition get_forecast (lat lon : pyval) (days : Z) : M (list Day.t) :=
  resp <- try_except (client_get FORECAST_URL (forecast_params lat lon days))
            upstream_handler ;;
  if negb (Z.eqb (status_code resp) 200) then
    raise (HTTPException 502 (Text "Weather data source unavailable"))
  else
    data <- lift (resp_json resp) ;;
    try_except (lift (forecast_days data)) format_handler.

(** [_resolve_location] of [main.py]; [lat] and [lon] are the parsed query
    floats.  An empty [city] is falsy. *)
Definition _resolve_location (city : option string) (lat lon : option spec_float)
  : M (pyval * pyval * pyval * pyval) :=
  match lat, lon with
  | Some la, Some lo =>
      let shown :=
        match city with
        | Some c => if truthy (PStr c) then c
                    else float_repr la ++ "," ++ float_repr lo
        | None => float_repr la ++ "," ++ float_repr lo
        end in
      ret (PStr shown, PStr "", PFloat la, PFloat lo)
  | _, _ =>
      match city with
      | Some c =>
          if truthy (PStr c) then
            geo <- geocode c ;;
            ret (name geo, country geo, latitude geo, longitude geo)
          else
            raise (HTTPException 400
                     (Text "Provide 'city' or both 'lat' and 'lon' parameters"))
      | None =>
          raise (HTTPException 400
                   (Text "Provide 'city' or both 'lat' and 'lon' parameters"))
      end
  end.


(** ** Configuration and pricing table of [main.py] *)

(** The process environment, read by [os.getenv]. *)
Variable getenv : string -> option string.

Definition EVM_ADDRESS : string :=
  match getenv "EVM_ADDRESS" with
  | Some a => if truthy (PStr a) then a
              else "0x0000000000000000000000000000000000000000"
  | None => "0x0000000000000000000000000000000000000000"
  end.

Definition NETWORK : string :=
  match getenv "NETWORK" with
  | Some n => n
  | None => "eip155:84532"
  end.

Definition PRICE : string := "$0.001".

Definition PAYMENT : PaymentOption :=
  {| scheme := "exact"; pay_to := EVM_ADDRESS; price := PRICE; network := NETWORK |}.

Definition current_example : pyval :=
  PDict [("city", PStr "Tokyo");
         ("country", PStr "Japan");
         ("latitude", PFloat (S754_finite false 5022850590657479 (-47)));
         ("longitude", PFloat (S754_finite false 4914964750521493 (-45)));
         ("temperature_c", PFloat (S754_finite false 25 (-1)));
         ("feels_like_c", PFloat (S754_finite false 2871044762448691 (-48)));
         ("humidity_pct", PInt 65);
         ("wind_speed_kmh", PFloat (S754_finite false 4306567143673037 (-48)));
         ("wind_direction_deg", PInt 270);
         ("precipitation_mm", PFloat (S754_zero false));
         ("condition", PStr "Partly cloudy");
         ("weather_code", PInt 2);
         ("observation_time", PStr "2026-02-20T15:00");
         ("attribution", PStr "Weather data by Open-Meteo.com")].

Definition forecast_example : pyval :=
  PDict [("city", PStr "Tokyo");
         ("country", PStr "Japan");
         ("latitude", PFloat (S754_finite false 5022850590657479 (-47)));
         ("longitude", PFloat (S754_finite false 4914964750521493 (-45)));
         ("days",
          PList [PDict [("date", PStr "2026-02-21");
                        ("condition", PStr "Slight rain");
                        ("weather_code", PInt 61);
                        ("temp_max_c", PFloat (S754_finite false 4278419646001971 (-48)));
                        ("temp_min_c", PFloat (S754_finite false 4559894622712627 (-49)));
                        ("precipitation_mm", PFloat (S754_finite false 25 (-1)));
                        ("precipitation_probability_pct", PInt 85);
                        ("wind_max_kmh", PFloat (S754_finite false 22 0))]]);
         ("attribution", PStr "Weather data by Open-Meteo.com")].

(** The [bazaar] extension of a route: example input and output. *)
Definition bazaar (query_params : list (string * pyval)) (example : pyval) : pyval :=
  PDict [("bazaar",
          PDict [("info",
                  PDict [("input", PDict [("type", PStr "http");
                                          ("queryParams", PDict query_params)]);
                         ("output", PDict [("type", PStr "json");
                                           ("example", example)])])])].

Definition routes : list (string * RouteConfig) :=
  [ ("GET /weather/current",
     {| accepts := [PAYMENT];
        mime_type := "application/json";
        description :=
          "Get current weather conditions for any city worldwide. "
          ++ "Returns temperature, humidity, wind, precipitation, and condition description. "
          ++ "Specify city name (geocoded automatically) or latitude/longitude coordinates.";
        extensions := bazaar [("city", PStr "Tokyo")] current_example |});
    ("GET /weather/forecast",
     {| accepts := [PAYMENT];
        mime_type := "application/json";
        description :=
          "Get daily weather forecast (1-7 days) for any city worldwide. "
          ++ "Returns max/min temperature, precipitation probability, and wind speed per day. "
          ++ "Specify city name or latitude/longitude coordinates.";
        extensions := bazaar [("city", PStr "Tokyo"); ("days", PStr "3")]
                        forecast_example |}) ].

(** [health_check]: always 200 with the three fields of [HealthResponse]. *)
Definition health_check : http_response :=
  {| status := 200;
     content_type := "application/json";
     body := Json (PDict [("status", PStr "ok");
                          ("service", PStr "weather-api");
                          ("network", PStr NETWORK)]) |}.

(** The FastAPI application below the middleware.  [GET /health] is routed
    to [health_check]; the two weather routes and the framework's own
    answers (404, 405, 422) are taken as given. *)
Definition app (other_routes : App) : App :=
  fun rq w =>
    if String.eqb (method rq) "GET" && String.eqb (path rq) "/health"
    then (health_check, w)
    else other_routes rq w.

(** ** The payment gate *)

(** Modelled from the spec: the facilitator's verification of a proof
    against one requirement; the facilitator is an external service. *)
Variable facilitator_verify : string -> PaymentOption -> verdict.

(** Modelled from the spec: [lookup(method, path)] of the pricing registry,
    an exact match on method and path with no wildcards. *)
Definition lookup_pricing (m p : string) : option RouteConfig :=
  route_get (m ++ " " ++ p) routes.

(** Modelled from the spec: [evaluate(request)] of the payment gate, whose
    implementation is the x402 package's [PaymentMiddlewareASGI] and is not
    among the sources.  An unreachable facilitator counts as invalid. *)
Definition evaluate (rq : http_request) : Decision :=
  match lookup_pricing (method rq) (path rq) with
  | None => Free
  | Some rc =>
      match payment_proof rq with
      | None => Challenge rc
      | Some proof =>
          match find (fun o => is_valid (facilitator_verify proof o)) (accepts rc) with
          | Some o => Proceed o
          | None => Challenge rc
          end
      end
  end.

(** Modelled from the spec: the challenge answered for a priced route, status
    402 with every requirement of the route and the route's configured
    content type and metadata. *)
Definition challenge (rc : RouteConfig) : http_response :=
  {| status := 402;
     content_type := mime_type rc;
     body := PaymentRequired (accepts rc) (description rc) (extensions rc) |}.

(** Modelled from the spec: the gate around the application, as installed by
    [app.add_middleware(PaymentMiddlewareASGI, routes=routes, server=server)].
    A priced request without a valid proof is answered with the challenge
    and goes no further; any other request is forwarded.
    Settlement after a forwarded request is fire-and-forget and leaves the
    response unchanged. *)
Definition PaymentMiddlewareASGI (inner : App) : App :=
  fun rq w =>
    match evaluate rq with
    | Free => inner rq w
    | Proceed _ => inner rq w
    | Challenge rc => (challenge rc, w)
    end.


(** ** Route handlers of [main.py] *)

(** The response models are pydantic classes.  [CurrentWeatherResponse] is
    called with [city], [country], [latitude], [longitude] and the entries
    of the dict of [get_current]; [ForecastResponse] with the same four and
    [days].  Validation is pydantic's and is taken as given: [None] stands
    for a raised [ValidationError]. *)
Variable CurrentWeatherModel : Type.
Variable CurrentWeatherResponse :
  pyval -> pyval -> pyval -> pyval -> Current.t -> option CurrentWeatherModel.
Variable ForecastModel : Type.
Variable ForecastResponse :
  pyval -> pyval -> pyval -> pyval -> list Day.t -> option ForecastModel.

Definition construct {A} (model : option A) : handled A :=
  match model with
  | Some r => Returned r
  | None => ValidationError
  end.

(** [weather_current]; the query parameters arrive parsed and checked by the
    framework. *)
Definition weather_current (city : option string) (lat lon : option spec_float)
  : world -> handled CurrentWeatherModel * world :=
  fun w =>
    match _resolve_location city lat lon w with
    | (Raise e, w1) => (Raised e, w1)
    | (Ok (city_name, country_, latitude_, longitude_), w1) =>
        match get_current latitude_ longitude_ w1 with
        | (Raise e, w2) => (Raised e, w2)
        | (Ok data, w2) =>
            (construct (CurrentWeatherResponse city_name country_ latitude_ longitude_ data),
             w2)
        end
    end.

(** [weather_forecast]; [days] arrives parsed and checked by the framework. *)
Definition weather_forecast (city : option string) (lat lon : option spec_float)
           (days : Z) : world -> handled ForecastModel * world :=
  fun w =>
    match _resolve_location city lat lon w with
    | (Raise e, w1) => (Raised e, w1)
    | (Ok (city_name, country_, latitude_, longitude_), w1) =>
        match get_forecast latitude_ longitude_ days w1 with
        | (Raise e, w2) => (Raised e, w2)
        | (Ok forecast_days_, w2) =>
            (construct (ForecastResponse city_name country_ latitude_ longitude_
                          forecast_days_),
             w2)
        end
    end.

(** The guard of the [__main__] block of [main.py]: the message of the
    [SystemExit] it raises, [None] when the server is started. *)
Definition main_guard : option string :=
  match getenv "EVM_ADDRESS" with
  | Some a =>
      if truthy (PStr a) then None
      else Some "ERROR: EVM_ADDRESS not set. Configure .env before starting the server."
  | None =>
      Some "ERROR: EVM_ADDRESS not set. Configure .env before starting the server."
  end.

(** ** The script [self_pay.py] *)

(** [c.lower()] for a character below U+0100: the ASCII capitals and the
    Latin-1 capitals (U+00C0 to U+00DE without the multiplication sign U+00D7)
    move up by 32, every other character stays. *)
Definition lower_char (c : ascii) : ascii :=
  let n := nat_of_ascii c in
  if ((65 <=? n) && (n <=? 90)
      || (192 <=? n) && (n <=? 222) && negb (n =? 215))%nat
  then ascii_of_nat (n + 32)
  else c.

(** [s.lower()]. *)
Fixpoint lower (s : string) : string :=
  match s with
  | EmptyString => EmptyString
  | String c rest => String (lower_char c) (lower rest)
  end.

(** The lines the script prints, by the [print] call that writes them. *)
Inductive line : Type :=
| MissingKey
| MissingKeyHint
| SameWallet
| SameWalletReason
| SameWalletHint
| PayerWallet (address : string)
| TargetAPI (api_url : string)
| Blank
| EndpointHeader (ep : string)
| StatusLine (code : Z)
| BodyLine (text : string)
| Done
| CheckEcosystem.

(** How the script ends: normally, by [sys.exit(code)], or by an exception
    of a collaborator that nothing catches. *)
Inductive ending : Type :=
| Finished
| SysExit (code : Z)
| Uncaught.

Record run : Type := {
  printed : list line;
  requested : list string;
  ended : ending
}.

(** [Account.from_key(key).address]: the address of a private key, [None]
    when [from_key] raises. *)
Variable address_of_key : string -> option string.

(** [await http.get(url)] of the x402 client, which pays when challenged:
    status and text of the final response, [None] when the call raises.  The
    answer may depend on the URLs requested before. *)
Variable paying_get : list string -> string -> option (Z * string).

Definition API_URL : string :=
  match getenv "WEATHER_API_URL" with
  | Some u => u
  | None => "http://localhost:4022"
  end.

Definition PRIVATE_KEY : option string := getenv "EVM_PRIVATE_KEY".

Definition endpoints : list string :=
  ["/weather/current?city=Tokyo"; "/weather/forecast?city=Tokyo&days=3"].

(** [for ep in endpoints: ...] and the two closing prints. *)
Fixpoint request_endpoints (eps : list string) (out : list line) (sent : list string)
  : run :=
  match eps with
  | [] => {| printed := (out ++ [Done; CheckEcosystem])%list;
             requested := sent; ended := Finished |}
  | ep :: rest =>
      let url_ := API_URL ++ ep in
      match paying_get sent url_ with
      | None => {| printed := (out ++ [EndpointHeader ep])%list;
                   requested := (sent ++ [url_])%list; ended := Uncaught |}
      | Some (code, text) =>
          request_endpoints rest
            (out ++ [EndpointHeader ep; StatusLine code;
                     BodyLine (substring 0 200 text); Blank])%list
            (sent ++ [url_])%list
      end
  end.

(** [main()] of the script for the private key [key]; creating the client
    and registering the signer are taken to succeed. *)
Definition main (key : string) : run :=
  match address_of_key key with
  | None => {| printed := []; requested := []; ended := Uncaught |}
  | Some address =>
      let server_address :=
        match getenv "EVM_ADDRESS" with
        | Some a => a
        | None => ""
        end in
      if truthy (PStr server_address)
         && String.eqb (lower address) (lower server_address)
      then {| printed := [SameWallet; SameWalletReason; SameWalletHint];
              requested := []; ended := SysExit 1 |}
      else request_endpoints endpoints
             [PayerWallet address; TargetAPI API_URL; Blank] []
  end.

(** The script as a whole: the import-time check of the private key, then
    [asyncio.run(main())]. *)
Definition self_pay : run :=
  match PRIVATE_KEY with
  | Some key =>
      if truthy (PStr key) then main key
      else {| printed := [MissingKey; MissingKeyHint];
              requested := []; ended := SysExit 1 |}
  | None => {| printed := [MissingKey; MissingKeyHint];
               requested := []; ended := SysExit 1 |}
  end.

(** ** Vocabulary of the properties *)

Definition geocode_request (city : string) : request :=
  {| url := GEOCODING_URL; params := geocode_params city |}.

Definition current_request (lat lon : pyval) : request :=
  {| url := FORECAST_URL; params := current_params lat lon |}.

Definition forecast_request (lat lon : pyval) (days : Z) : request :=
  {| url := FORECAST_URL; params := forecast_params lat lon days |}.

(** The three upstream failures of the taxonomy and the status each maps to. *)
Inductive upstream_failure : outcome -> Z -> Prop :=
| deadline_exceeded e :
    is_TimeoutException e = true -> upstream_failure (Fails e) 504
| connection_failed e :
    is_TransportError e = true -> is_TimeoutException e = false ->
    upstream_failure (Fails e) 502
| bad_status r :
    status_code r <> 200 -> upstream_failure (Responds r) 502.

Definition failure_text (st : Z) : string :=
  if Z.eqb st 504 then "Weather data source timeout"
  else "Weather data source unavailable".

Definition catchable (b : builtin_exc) : bool :=
  match b with
  | KeyError _ | TypeError | IndexError => true
  | _ => false
  end.

Definition format_error (b : builtin_exc) : exn :=
  HTTPException 502 (TextOf "Unexpected weather data format: " b).

(** Every exception of [r] is one of the three classes the handler names. *)
Definition raises_catchable {A} (r : result A) : Prop :=
  forall e, r = Raise e -> exists b, e = Builtin b /\ catchable b = true.

(** The keys read from [data["current"]] and from [data["daily"]]. *)
Definition current_keys : list string :=
  ["weather_code"; "temperature_2m"; "apparent_temperature";
   "relative_humidity_2m"; "wind_speed_10m"; "wind_direction_10m";
   "precipitation"; "time"].

Definition daily_keys : list string :=
  ["weather_code"; "time"; "temperature_2m_max"; "temperature_2m_min";
   "precipitation_sum"; "precipitation_probability_max"; "wind_speed_10m_max"].

Definition has_key (k : string) (kvs : list (string * pyval)) : bool :=
  match dict_lookup k kvs with
  | Some _ => true
  | None => false
  end.

(** The body is an object whose [current] is an object holding the eight
    keys, with a hashable [weather_code]. *)
Definition current_complete (data : pyval) : bool :=
  match data with
  | PDict kvs =>
      match dict_lookup "current" kvs with
      | Some (PDict ckvs) =>
          forallb (fun k => has_key k ckvs) current_keys
          && match dict_lookup "weather_code" ckvs with
             | Some code => hashable code
             | None => false
             end
      | _ => false
      end
  | _ => false
  end.

(** The [daily] object of a body, when the body is an object that has one. *)
Definition daily_of (data : pyval) : option (list (string * pyval)) :=
  match data with
  | PDict kvs =>
      match dict_lookup "daily" kvs with
      | Some (PDict dkvs) => Some dkvs
      | _ => None
      end
  | _ => None
  end.

(** Every field of a returned snapshot is the upstream value at its key. *)
Definition current_verbatim (data : pyval) (c : Current.t) : Prop :=
  exists kvs ckvs,
    data = PDict kvs
    /\ dict_lookup "current" kvs = Some (PDict ckvs)
    /\ dict_lookup "weather_code" ckvs = Some (Current.weather_code c)
    /\ dict_lookup "temperature_2m" ckvs = Some (Current.temperature_c c)
    /\ dict_lookup "apparent_temperature" ckvs = Some (Current.feels_like_c c)
    /\ dict_lookup "relative_humidity_2m" ckvs = Some (Current.humidity_pct c)
    /\ dict_lookup "wind_speed_10m" ckvs = Some (Current.wind_speed_kmh c)
    /\ dict_lookup "wind_direction_10m" ckvs = Some (Current.wind_direction_deg c)
    /\ dict_lookup "precipitation" ckvs = Some (Current.precipitation_mm c)
    /\ dict_lookup "time" ckvs = Some (Current.observation_time c)
    /\ describe_weather_code (Current.weather_code c) = Ok (Current.condition c).

(** Every field of entry [e] is the upstream value at index [i] of its
    array, and the condition is that of the entry's own code. *)
Definition day_verbatim (daily : pyval) (i : nat) (e : Day.t) : Prop :=
  daily_at daily "weather_code" i = Ok (Day.weather_code e)
  /\ daily_at daily "time" i = Ok (Day.date e)
  /\ describe_weather_code (Day.weather_code e) = Ok (Day.condition e)
  /\ daily_at daily "temperature_2m_max" i = Ok (Day.temp_max_c e)
  /\ daily_at daily "temperature_2m_min" i = Ok (Day.temp_min_c e)
  /\ daily_at daily "precipitation_sum" i = Ok (Day.precipitation_mm e)
  /\ daily_at daily "precipitation_probability_max" i
     = Ok (Day.precipitation_probability_pct e)
  /\ daily_at daily "wind_speed_10m_max" i = Ok (Day.wind_max_kmh e).

(** The daily object maps the seven keys to the seven arrays of [a]. *)
Definition supplies (dkvs : list (string * pyval)) (a : daily_arrays) : Prop :=
  dict_lookup "time" dkvs = Some (PList (a_time a))
  /\ dict_lookup "weather_code" dkvs = Some (PList (a_weather_code a))
  /\ dict_lookup "temperature_2m_max" dkvs = Some (PList (a_temperature_2m_max a))
  /\ dict_lookup "temperature_2m_min" dkvs = Some (PList (a_temperature_2m_min a))
  /\ dict_lookup "precipitation_sum" dkvs = Some (PList (a_precipitation_sum a))
  /\ dict_lookup "precipitation_probability_max" dkvs
     = Some (PList (a_precipitation_probability_max a))
  /\ dict_lookup "wind_speed_10m_max" dkvs = Some (PList (a_wind_speed_10m_max a)).

(** Entry [e] holds element [i] of each array and the condition of its own
    code. *)
Definition entry_at (a : daily_arrays) (i : nat) (e : Day.t) : Prop :=
  nth_error (a_time a) i = Some (Day.date e)
  /\ nth_error (a_weather_code a) i = Some (Day.weather_code e)
  /\ describe_weather_code (Day.weather_code e) = Ok (Day.condition e)
  /\ nth_error (a_temperature_2m_max a) i = Some (Day.temp_max_c e)
  /\ nth_error (a_temperature_2m_min a) i = Some (Day.temp_min_c e)
  /\ nth_error (a_precipitation_sum a) i = Some (Day.precipitation_mm e)
  /\ nth_error (a_precipitation_probability_max a) i
     = Some (Day.precipitation_probability_pct e)
  /\ nth_error (a_wind_speed_10m_max a) i = Some (Day.wind_max_kmh e).

(** What a [try] block guarded by [format_handler] makes of its body. *)
Definition caught {A} (r : result A) : result A :=
  match r with
  | Ok a => Ok a
  | Raise (Builtin b) => if catchable b then Raise (format_error b) else Raise (Builtin b)
  | Raise e => Raise e
  end.

(** The result of an operation as a function of the upstream's outcome,
    [decode] being what the operation does with the decoded body. *)
Definition answer_to {A} (decode : pyval -> result A) (o : outcome) : result A :=
  match o with
  | Fails e =>
      if is_TimeoutException e then
        Raise (HTTPException 504 (Text "Weather data source timeout"))
      else if is_HTTPError e then
        Raise (HTTPException 502 (Text "Weather data source unavailable"))
      else Raise (Httpx e)
  | Responds r =>
      if Z.eqb (status_code r) 200 then
        match json_body r with
        | Some data => decode data
        | None => Raise (Builtin JSONDecodeError)
        end
      else Raise (HTTPException 502 (Text "Weather data source unavailable"))
  end.

(** The name shown for a bare coordinate pair: [f"{lat},{lon}"]. *)
Definition coordinate_name (lat lon : spec_float) : string :=
  float_repr lat ++ "," ++ float_repr lon.

(** A city name was given: the parameter is present and not empty. *)
Definition city_given (city : option string) : option string :=
  match city with
  | Some c => if String.eqb c "" then None else Some c
  | None => None
  end.

Definition bad_request : exn :=
  HTTPException 400 (Text "Provide 'city' or both 'lat' and 'lon' parameters").

(** What [geocode] does with the decoded body. *)
Definition geocode_decode (city : string) (data : pyval) : result Location :=
  let* results := get_method data "results" PNone in
  if negb (truthy results) then
    Raise (HTTPException 404 (Text ("City not found: " ++ city)))
  else
    let* hit := getitem_int results 0 in
    let* name_ := getitem_str hit "name" in
    let* country_ := get_method hit "country" (PStr "") in
    let* latitude_ := getitem_str hit "latitude" in
    let* longitude_ := getitem_str hit "longitude" in
    Ok {| name := name_; country := country_;
          latitude := latitude_; longitude := longitude_ |}.

(** The exceptions [get_current] and [get_forecast] can end in. *)
Definition client_fault (e : exn) : Prop :=
  match e with
  | HTTPException st _ => st = 502 \/ st = 504
  | Builtin b => b = JSONDecodeError
  | Httpx h => is_HTTPError h = false
  end.

(** The exceptions [geocode] can end in. *)
Definition geocode_fault (e : exn) : Prop :=
  match e with
  | HTTPException st _ => st = 404 \/ st = 502 \/ st = 504
  | Builtin b => b <> IndexError
  | Httpx h => is_HTTPError h = false
  end.


(** The body of a 200 answer, when it is a JSON object. *)
Definition object_of (o : outcome) : option (list (string * pyval)) :=
  match o with
  | Responds r =>
      if Z.eqb (status_code r) 200 then
        match json_body r with
        | Some (PDict kvs) => Some kvs
        | _ => None
        end
      else None
  | Fails _ => None
  end.

(** The value of [data.get("results")]. *)
Definition results_of (kvs : list (string * pyval)) : pyval :=
  match dict_lookup "results" kvs with
  | Some v => v
  | None => PNone
  end.

(** The city name shown for a request that carries both coordinates. *)
Definition label (city : option string) (lat lon : spec_float) : string :=
  match city_given city with
  | Some c => c
  | None => coordinate_name lat lon
  end.

(** The requests to a service among [sent]. *)
Definition requests_to (u : string) (sent : list request) : list request :=
  filter (fun rq => String.eqb (url rq) u) sent.

Definition zero_address : string := "0x0000000000000000000000000000000000000000".

(** [os.getenv("EVM_ADDRESS", "")] of the script. *)
Definition server_address : string :=
  match getenv "EVM_ADDRESS" with
  | Some a => a
  | None => ""
  end.


(** ** Sample inputs, from the repository's tests *)

Definition f_35_6895 : spec_float := S754_finite false 5022850590657479 (-47).
Definition f_139_6917 : spec_float := S754_finite false 4914964750521493 (-45).
Definition f_12_5 : spec_float := S754_finite false 25 (-1).
Definition f_10_2 : spec_float := S754_finite false 2871044762448691 (-48).
Definition f_15_3 : spec_float := S754_finite false 4306567143673037 (-48).
Definition f_0_0 : spec_float := S754_zero false.

(** [repr] on the sample floats; other floats are not used below. *)
Definition sample_repr (f : spec_float) : string :=
  match f with
  | S754_zero false => "0.0"
  | S754_finite false 25 (-1) => "12.5"
  | S754_finite false 5022850590657479 (-47) => "35.6895"
  | S754_finite false 4914964750521493 (-45) => "139.6917"
  | S754_finite false 2871044762448691 (-48) => "10.2"
  | S754_finite false 4306567143673037 (-48) => "15.3"
  | _ => "nan"
  end.

(** An upstream that gives the same outcome to every request. *)
Definition answers (o : outcome) : world -> request -> outcome := fun _ _ => o.

Definition ok_json (v : pyval) : outcome :=
  Responds {| status_code := 200; json_body := Some v |}.

Definition tokyo_body : pyval :=
  PDict [("results",
          PList [PDict [("name", PStr "Tokyo"); ("country", PStr "Japan");
                        ("latitude", PFloat f_35_6895);
                        ("longitude", PFloat f_139_6917)]])].

Definition current_body : pyval :=
  PDict [("current",
          PDict [("temperature_2m", PFloat f_12_5);
                 ("apparent_temperature", PFloat f_10_2);
                 ("relative_humidity_2m", PInt 65);
                 ("wind_speed_10m", PFloat f_15_3);
                 ("wind_direction_10m", PInt 270);
                 ("precipitation", PFloat f_0_0);
                 ("weather_code", PInt 2);
                 ("time", PStr "2026-02-20T15:00")])].

Definition forecast_arrays : daily_arrays :=
  {| a_time := [PStr "2026-02-21"; PStr "2026-02-22"; PStr "2026-02-23"];
     a_weather_code := [PInt 61; PInt 0; PInt 2];
     a_temperature_2m_max := [PFloat f_15_3; PInt 18; PFloat f_12_5];
     a_temperature_2m_min := [PFloat f_10_2; PFloat f_12_5; PFloat f_10_2];
     a_precipitation_sum := [PFloat f_12_5; PFloat f_0_0; PFloat f_0_0];
     a_precipitation_probability_max := [PInt 85; PInt 5; PInt 20];
     a_wind_speed_10m_max := [PInt 22; PInt 10; PFloat f_12_5] |}.

Definition daily_dict (a : daily_arrays) : list (string * pyval) :=
  [("time", PList (a_time a));
   ("weather_code", PList (a_weather_code a));
   ("temperature_2m_max", PList (a_temperature_2m_max a));
   ("temperature_2m_min", PList (a_temperature_2m_min a));
   ("precipitation_sum", PList (a_precipitation_sum a));
   ("precipitation_probability_max", PList (a_precipitation_probability_max a));
   ("wind_speed_10m_max", PList (a_wind_speed_10m_max a))].

Definition forecast_body : pyval :=
  PDict [("daily", PDict (daily_dict forecast_arrays))].

Definition not_json : outcome :=
  Responds {| status_code := 200; json_body := None |}.

(** The body of the malformed-response tests. *)
Definition error_body : pyval :=
  PDict [("error", PBool true); ("reason", PStr "bad")].

(** A first result without [name]. *)
Definition nameless_body : pyval :=
  PDict [("results", PList [PDict [("country", PStr "Japan");
                                   ("latitude", PFloat f_35_6895);
                                   ("longitude", PFloat f_139_6917)]])].

(** A first result without [country]. *)
Definition stateless_body : pyval :=
  PDict [("results", PList [PDict [("name", PStr "Null Island");
                                   ("latitude", PInt 0);
                                   ("longitude", PInt 0)]])].

(** A current object whose temperature is an array. *)
Definition array_temperature_body : pyval :=
  PDict [("current",
          PDict [("temperature_2m", PList [PInt 1; PInt 2]);
                 ("apparent_temperature", PFloat f_10_2);
                 ("relative_humidity_2m", PInt 65);
                 ("wind_speed_10m", PFloat f_15_3);
                 ("wind_direction_10m", PInt 270);
                 ("precipitation", PFloat f_0_0);
                 ("weather_code", PInt 2);
                 ("time", PStr "2026-02-20T15:00")])].

(** A daily object with an empty time array and nothing else. *)
Definition empty_time_body : pyval :=
  PDict [("daily", PDict [("time", PList [])])].

(** A daily object with an empty time array and one other array. *)
Definition empty_time_codes_body : pyval :=
  PDict [("daily", PDict [("time", PList []); ("weather_code", PList [PInt 3])])].

(** Upstream returns two days whatever was requested. *)
Definition two_day_arrays : daily_arrays :=
  {| a_time := [PStr "2026-02-21"; PStr "2026-02-22"];
     a_weather_code := [PInt 61; PInt 0; PInt 2];
     a_temperature_2m_max := [PInt 15; PInt 18; PInt 16];
     a_temperature_2m_min := [PInt 8; PInt 9];
     a_precipitation_sum := [PInt 12; PInt 0];
     a_precipitation_probability_max := [PInt 85; PInt 5];
     a_wind_speed_10m_max := [PInt 22; PInt 10] |}.

(** Three days of which the wind array holds two. *)
Definition short_wind_arrays : daily_arrays :=
  {| a_time := [PStr "2026-02-21"; PStr "2026-02-22"; PStr "2026-02-23"];
     a_weather_code := [PInt 61; PInt 0; PInt 2];
     a_temperature_2m_max := [PInt 15; PInt 18; PInt 16];
     a_temperature_2m_min := [PInt 8; PInt 9; PInt 7];
     a_precipitation_sum := [PInt 12; PInt 0; PInt 0];
     a_precipitation_probability_max := [PInt 85; PInt 5; PInt 20];
     a_wind_speed_10m_max := [PInt 22; PInt 10] |}.

Definition body_of_arrays (a : daily_arrays) : pyval :=
  PDict [("daily", PDict (daily_dict a))].

Definition no_env : string -> option string := fun _ => None.

Definition rejects : string -> PaymentOption -> verdict := fun _ _ => Invalid.

Definition unpaid_request : http_request :=
  {| method := "GET"; path := "/weather/current";
     query := [("city", "Tokyo")]; payment_proof := None |}.

Definition health_request : http_request :=
  {| method := "GET"; path := "/health"; query := []; payment_proof := None |}.

(** An application that answers 200 to everything. *)
Definition permissive_app : App :=
  fun _ w => ({| status := 200; content_type := "application/json";
                 body := Json PNone |}, w).

(** A response model that accepts every argument and keeps it. *)
Definition kept_current : Type := (pyval * pyval * pyval * pyval * Current.t)%type.

Definition keep_current (city_ country_ latitude_ longitude_ : pyval) (data : Current.t)
  : option kept_current :=
  Some (city_, country_, latitude_, longitude_, data).

Definition kept_forecast : Type := (pyval * pyval * pyval * pyval * list Day.t)%type.

Definition keep_forecast (city_ country_ latitude_ longitude_ : pyval) (l : list Day.t)
  : option kept_forecast :=
  Some (city_, country_, latitude_, longitude_, l).

(** An upstream that answers the geocoding URL with [geo] and any other URL
    with [other]. *)
Definition two_services (geo other : outcome) : world -> request -> outcome :=
  fun _ rq => if String.eqb (url rq) GEOCODING_URL then geo else other.

(** An environment for the script: a private key, and a server address
    written in lower case. *)
Definition script_env (name_ : string) : option string :=
  if String.eqb name_ "EVM_PRIVATE_KEY" then Some "0x01"
  else if String.eqb name_ "EVM_ADDRESS"
       then Some "0x7e5f4552091a69125d5dfcb7b8c2659029395bdf"
       else None.

(** The same address in mixed-case checksum form. *)
Definition own_wallet : string -> option string :=
  fun _ => Some "0x7E5F4552091A69125d5DfCb7b8C2659029395Bdf".


(** A server that answers 402 to the first endpoint and 500 to the second. *)
Definition unhelpful_server : list string -> string -> option (Z * string) :=
  fun sent _ =>
    match sent with
    | [] => Some (402, "{}")
    | _ => Some (500, "Internal Server Error")
    end.

Definition set_address (name_ : string) : option string :=
  if String.eqb name_ "EVM_ADDRESS"
  then Some "0x7e5f4552091a69125d5dfcb7b8c2659029395bdf"
  else None.

(** * Properties *)

(** ** The weather-code table *)

Lemma table_get_none (code : Z) (t : list (Z * string)) :
  ~ In code (map fst t) -> table_get code t = None.
Proof.
  induction t as [|[c s] t IH]; simpl; intros Hn; [reflexivity|].
  destruct (Z.eqb_spec code c) as [->|_].
  - exfalso. apply Hn. now left.
  - apply IH. intros Hin. apply Hn. now right.
Qed.

Lemma describe_int (code : Z) :
  describe_weather_code (PInt code) =
  Ok match table_get code WMO_CODES with
     | Some s => s
     | None => "Unknown (" ++ str_int code ++ ")"
     end.
Proof.
  unfold describe_weather_code, hashable, int_key.
  destruct (table_get code WMO_CODES); reflexivity.
Qed.

(** C6. For every key of the WMO table [describe_weather_code] returns the
    string configured for it, the keys are exactly the 28 listed codes, and
    for every other integer it returns ["Unknown (<code>)"] with the code in
    decimal; it never raises on an integer. *)
Theorem describe_weather_code_spec :
  map fst WMO_CODES =
    [0; 1; 2; 3; 45; 48; 51; 53; 55; 56; 57; 61; 63; 65; 66; 67; 71; 73; 75;
     77; 80; 81; 82; 85; 86; 95; 96; 99]
  /\ (forall code s, In (code, s) WMO_CODES ->
        describe_weather_code (PInt code) = Ok s)
  /\ describe_weather_code (PInt 0) = Ok "Clear sky"
  /\ describe_weather_code (PInt 2) = Ok "Partly cloudy"
  /\ describe_weather_code (PInt 95) = Ok "Thunderstorm"
  /\ (forall code, ~ In code (map fst WMO_CODES) ->
        describe_weather_code (PInt code) = Ok ("Unknown (" ++ str_int code ++ ")"))
  /\ str_int 999 = "999" /\ str_int (-4) = "-4".
Proof.
  split; [reflexivity|].
  split.
  { intros code s Hin. unfold WMO_CODES in Hin.
    repeat (destruct Hin as [Heq|Hin]; [injection Heq as <- <-; reflexivity|]).
    destruct Hin. }
  repeat (split; [reflexivity|]).
  split; [|split; reflexivity].
  intros code Hn. rewrite describe_int. now rewrite (table_get_none _ _ Hn).
Qed.

(** ** The request prefix shared by the three operations *)

Lemma run_fetch_timeout {A} (u : string) ps (k : Response -> M A) w e :
  upstream w {| url := u; params := ps |} = Fails e ->
  is_TimeoutException e = true ->
  bind (try_except (client_get u ps) upstream_handler) k w =
  (Raise (HTTPException 504 (Text "Weather data source timeout")),
   (w ++ [{| url := u; params := ps |}])%list).
Proof.
  intros Hu Ht. unfold bind, try_except, client_get. rewrite Hu.
  unfold upstream_handler. now rewrite Ht.
Qed.

Lemma run_fetch_http_error {A} (u : string) ps (k : Response -> M A) w e :
  upstream w {| url := u; params := ps |} = Fails e ->
  is_TimeoutException e = false ->
  is_HTTPError e = true ->
  bind (try_except (client_get u ps) upstream_handler) k w =
  (Raise (HTTPException 502 (Text "Weather data source unavailable")),
   (w ++ [{| url := u; params := ps |}])%list).
Proof.
  intros Hu Ht Hh. unfold bind, try_except, client_get. rewrite Hu.
  unfold upstream_handler. now rewrite Ht, Hh.
Qed.

Lemma run_fetch_uncaught {A} (u : string) ps (k : Response -> M A) w e :
  upstream w {| url := u; params := ps |} = Fails e ->
  is_HTTPError e = false ->
  bind (try_except (client_get u ps) upstream_handler) k w =
  (Raise (Httpx e), (w ++ [{| url := u; params := ps |}])%list).
Proof.
  intros Hu Hh. unfold bind, try_except, client_get. rewrite Hu.
  unfold upstream_handler. destruct e; try discriminate Hh. reflexivity.
Qed.

Lemma run_fetch_response {A} (u : string) ps (k : Response -> M A) w r :
  upstream w {| url := u; params := ps |} = Responds r ->
  bind (try_except (client_get u ps) upstream_handler) k w =
  k r (w ++ [{| url := u; params := ps |}])%list.
Proof.
  intros Hu. unfold bind, try_except, client_get. now rewrite Hu.
Qed.

Lemma transport_is_http_error e : is_TransportError e = true -> is_HTTPError e = true.
Proof. now destruct e. Qed.

Lemma run_fetch_failure {A} (u : string) ps (k : Response -> M A) w st :
  upstream_failure (upstream w {| url := u; params := ps |}) st ->
  bind (try_except (client_get u ps) upstream_handler)
       (fun resp =>
          if negb (Z.eqb (status_code resp) 200) then
            raise (HTTPException 502 (Text "Weather data source unavailable"))
          else k resp) w =
  (Raise (HTTPException st (Text (failure_text st))),
   (w ++ [{| url := u; params := ps |}])%list).
Proof.
  intros Hf. inversion Hf as [e Ht He|e Htr Ht He|r Hr He]; subst; symmetry in He.
  - now rewrite (run_fetch_timeout _ _ _ _ _ He Ht).
  - now rewrite (run_fetch_http_error _ _ _ _ _ He Ht (transport_is_http_error _ Htr)).
  - rewrite (run_fetch_response _ _ _ _ _ He).
    destruct (Z.eqb_spec (status_code r) 200) as [E|_]; [contradiction|reflexivity].
Qed.

(** C3. For each of [geocode], [get_current] and [get_forecast]: when the
    outbound call times out the operation raises [HTTPException] 504; when it
    fails with another transport error, or the upstream answers with a status
    other than 200, it raises [HTTPException] 502.  The two statuses differ
    and one outcome falls in one class only. *)
Theorem upstream_failure_status :
  (forall city w st,
      upstream_failure (upstream w (geocode_request city)) st ->
      fst (geocode city w) = Raise (HTTPException st (Text (failure_text st))))
  /\ (forall lat lon w st,
      upstream_failure (upstream w (current_request lat lon)) st ->
      fst (get_current lat lon w) = Raise (HTTPException st (Text (failure_text st))))
  /\ (forall lat lon days w st,
      upstream_failure (upstream w (forecast_request lat lon days)) st ->
      fst (get_forecast lat lon days w) = Raise (HTTPException st (Text (failure_text st))))
  /\ (forall o st, upstream_failure o st -> st = 504 \/ st = 502)
  /\ (forall o st st', upstream_failure o st -> upstream_failure o st' -> st = st')
  /\ 504 <> 502.
Proof.
  repeat split.
  - intros city w st Hf. unfold geocode. now rewrite (run_fetch_failure _ _ _ _ _ Hf).
  - intros lat lon w st Hf. unfold get_current. now rewrite (run_fetch_failure _ _ _ _ _ Hf).
  - intros lat lon days w st Hf. unfold get_forecast.
    now rewrite (run_fetch_failure _ _ _ _ _ Hf).
  - intros o st Hf. destruct Hf; auto.
  - intros o st st' H1 H2. destruct H1; inversion H2; subst; congruence.
  - discriminate.
Qed.

(** ** [geocode] *)

(** A 200 answer whose body is a JSON object. *)
Lemma geocode_run_object city w r kvs :
  upstream w (geocode_request city) = Responds r ->
  status_code r = 200 ->
  json_body r = Some (PDict kvs) ->
  fst (geocode city w) =
  let results := match dict_lookup "results" kvs with Some v => v | None => PNone end in
  if truthy results then
    let* hit := getitem_int results 0 in
    let* name_ := getitem_str hit "name" in
    let* country_ := get_method hit "country" (PStr "") in
    let* latitude_ := getitem_str hit "latitude" in
    let* longitude_ := getitem_str hit "longitude" in
    Ok {| name := name_; country := country_;
          latitude := latitude_; longitude := longitude_ |}
  else Raise (HTTPException 404 (Text ("City not found: " ++ city))).
Proof.
  intros Hu Hs Hb. unfold geocode, geocode_request in *.
  rewrite (run_fetch_response _ _ _ _ _ Hu). rewrite Hs. cbn [Z.eqb Pos.eqb negb].
  unfold bind, lift, resp_json, get_method. rewrite Hb.
  destruct (dict_lookup "results" kvs) as [results|]; cbn zeta;
    [|reflexivity].
  destruct (truthy results); cbn [negb]; [|reflexivity].
  destruct (getitem_int results 0) as [hit|]; cbn [rbind]; [|reflexivity].
  destruct (getitem_str hit "name"); cbn [rbind]; [|reflexivity].
  destruct hit; try reflexivity.
  cbn [getitem_str]. destruct (dict_lookup "country" kvs0);
    (destruct (dict_lookup "latitude" kvs0); cbn [rbind]; [|reflexivity];
     destruct (dict_lookup "longitude" kvs0); reflexivity).
Qed.

(** C5. On a 200 answer whose JSON object has an empty [results] list, a
    null [results] or no [results] key, [geocode] raises [HTTPException] 404;
    and whenever [geocode] returns, the answer was a 200 JSON object whose
    [results] is a non-empty list. *)
Theorem geocode_not_found :
  (forall city w r kvs,
      upstream w (geocode_request city) = Responds r ->
      status_code r = 200 ->
      json_body r = Some (PDict kvs) ->
      dict_lookup "results" kvs = Some (PList [])
      \/ dict_lookup "results" kvs = Some PNone
      \/ dict_lookup "results" kvs = None ->
      fst (geocode city w) = Raise (HTTPException 404 (Text ("City not found: " ++ city))))
  /\ (forall city w loc,
      fst (geocode city w) = Ok loc ->
      exists r kvs hit rest,
        upstream w (geocode_request city) = Responds r
        /\ status_code r = 200
        /\ json_body r = Some (PDict kvs)
        /\ dict_lookup "results" kvs = Some (PList (hit :: rest))).
Proof.
  split.
  - intros city w r kvs Hu Hs Hb Hres.
    rewrite (geocode_run_object _ _ _ _ Hu Hs Hb).
    destruct Hres as [-> | [-> | ->]]; reflexivity.
  - intros city w loc Hok.
    destruct (upstream w (geocode_request city)) as [r|e] eqn:Hu.
    + destruct (Z.eqb_spec (status_code r) 200) as [Hs|Hs].
      * destruct (json_body r) as [[| | | | |l|kvs]|] eqn:Hb;
          try (exfalso; revert Hok; unfold geocode, geocode_request in *;
               rewrite (run_fetch_response _ _ _ _ _ Hu), Hs;
               cbn [Z.eqb Pos.eqb negb]; unfold bind, lift, resp_json;
               rewrite Hb; discriminate).
        rewrite (geocode_run_object _ _ _ _ Hu Hs Hb) in Hok. cbn zeta in Hok.
        destruct (dict_lookup "results" kvs) as [results|] eqn:Hr;
          [|discriminate Hok].
        destruct results as [| | | | s |[|hit rest]|rkvs]; try discriminate Hok.
        -- destruct b; discriminate Hok.
        -- destruct (truthy (PInt z)); discriminate Hok.
        -- destruct (truthy (PFloat f)); discriminate Hok.
        -- destruct (truthy (PStr s)); [|discriminate Hok].
           cbn in Hok. destruct (string_nth s 0); discriminate Hok.
        -- exists r, kvs, hit, rest. auto.
        -- destruct rkvs; discriminate Hok.
      * exfalso. revert Hok. unfold geocode, geocode_request in *.
        rewrite (run_fetch_response _ _ _ _ _ Hu).
        destruct (Z.eqb_spec (status_code r) 200); [contradiction|discriminate].
    + exfalso. revert Hok. unfold geocode, geocode_request in *.
      unfold bind, try_except, client_get. rewrite Hu. unfold upstream_handler.
      destruct (is_TimeoutException e); [discriminate|].
      destruct (is_HTTPError e); discriminate.
Qed.

(** C10. When the first entry of a non-empty [results] list is an object
    with [name], [latitude] and [longitude] but no [country], [geocode]
    returns a location whose country is the empty string; when instead one of
    [name], [latitude], [longitude] is absent, [geocode] does not return: the
    lookup of the first absent key raises [KeyError]. *)
Theorem geocode_country_default :
  forall city w r kvs hkvs rest,
    upstream w (geocode_request city) = Responds r ->
    status_code r = 200 ->
    json_body r = Some (PDict kvs) ->
    dict_lookup "results" kvs = Some (PList (PDict hkvs :: rest)) ->
    (forall n la lo,
        dict_lookup "name" hkvs = Some n ->
        dict_lookup "latitude" hkvs = Some la ->
        dict_lookup "longitude" hkvs = Some lo ->
        dict_lookup "country" hkvs = None ->
        fst (geocode city w) =
        Ok {| name := n; country := PStr ""; latitude := la; longitude := lo |})
    /\ (forall k,
        In k ["name"; "latitude"; "longitude"] ->
        dict_lookup k hkvs = None ->
        exists k', In k' ["name"; "latitude"; "longitude"]
                   /\ fst (geocode city w) = Raise (Builtin (KeyError (KStr k')))).
Proof.
  intros city w r kvs hkvs rest Hu Hs Hb Hr.
  rewrite (geocode_run_object _ _ _ _ Hu Hs Hb), Hr. cbn.
  split.
  - intros n la lo Hn Hla Hlo Hc. now rewrite Hn, Hc, Hla, Hlo.
  - intros k Hk Hnone.
    destruct (dict_lookup "name" hkvs) eqn:Hn; cbn;
      [|exists "name"; split; [now left|reflexivity]].
    destruct (dict_lookup "country" hkvs);
      (destruct (dict_lookup "latitude" hkvs) eqn:Hla; cbn;
       [|exists "latitude"; split; [right; now left|reflexivity]];
       destruct (dict_lookup "longitude" hkvs) eqn:Hlo; cbn;
       [|exists "longitude"; split; [right; right; now left|reflexivity]]).
    all: exfalso; destruct Hk as [<-|[<-|[<-|[]]]]; congruence.
Qed.

(** ** Errors raised while reading the decoded body *)

Lemma getitem_str_catchable v k : raises_catchable (getitem_str v k).
Proof.
  intros e. destruct v; cbn; try (intros [= <-]; eexists; split; reflexivity).
  destruct (dict_lookup k kvs); [discriminate|].
  intros [= <-]; eexists; split; reflexivity.
Qed.

Lemma getitem_int_catchable v i : raises_catchable (getitem_int v i).
Proof.
  intros e. destruct v; cbn; try (intros [= <-]; eexists; split; reflexivity).
  - destruct (string_nth s i); [discriminate|].
    intros [= <-]; eexists; split; reflexivity.
  - destruct (nth_error l i); [discriminate|].
    intros [= <-]; eexists; split; reflexivity.
Qed.

Lemma py_len_catchable v : raises_catchable (py_len v).
Proof.
  intros e. destruct v; cbn; try discriminate;
    intros [= <-]; eexists; split; reflexivity.
Qed.

Lemma describe_catchable code : raises_catchable (describe_weather_code code).
Proof.
  intros e. unfold describe_weather_code.
  destruct (hashable code).
  - destruct (int_key code) as [z|]; [destruct (table_get z WMO_CODES)|]; discriminate.
  - intros [= <-]; eexists; split; reflexivity.
Qed.

Lemma describe_hashable code :
  hashable code = true -> exists s, describe_weather_code code = Ok s.
Proof.
  intros H. unfold describe_weather_code. rewrite H.
  destruct (int_key code) as [z|]; [destruct (table_get z WMO_CODES)|]; eauto.
Qed.

Lemma describe_ok_hashable code s :
  describe_weather_code code = Ok s -> hashable code = true.
Proof.
  unfold describe_weather_code. destruct (hashable code); [reflexivity|discriminate].
Qed.

Lemma rbind_catchable {A B} (r : result A) (k : A -> result B) :
  raises_catchable r -> (forall a, r = Ok a -> raises_catchable (k a)) ->
  raises_catchable (rbind r k).
Proof.
  intros Hr Hk e. destruct r as [a|e']; cbn.
  - now apply Hk.
  - intros [= <-]. now apply Hr.
Qed.

Lemma ok_catchable {A} (a : A) : raises_catchable (Ok a).
Proof. intros e; discriminate. Qed.

Lemma daily_at_catchable daily key i : raises_catchable (daily_at daily key i).
Proof.
  unfold daily_at. apply rbind_catchable.
  - apply getitem_str_catchable.
  - intros; apply getitem_int_catchable.
Qed.

Create HintDb catchable.
#[local] Hint Resolve getitem_str_catchable getitem_int_catchable py_len_catchable
  describe_catchable daily_at_catchable ok_catchable : catchable.

Ltac catchable_steps :=
  repeat (apply rbind_catchable; [auto with catchable|intros ? _]);
  auto with catchable.

Lemma current_fields_catchable data : raises_catchable (current_fields data).
Proof. unfold current_fields. catchable_steps. Qed.

Lemma forecast_entry_catchable daily i : raises_catchable (forecast_entry daily i).
Proof. unfold forecast_entry. catchable_steps. Qed.

(** The loop either returns the accumulator extended by the entry of every
    index, in order, or raises what the first failing entry raises. *)
Lemma forecast_loop_spec daily indices :
  forall acc,
    match forecast_loop daily indices acc with
    | Ok l => exists es, l = (acc ++ es)%list
                         /\ Forall2 (fun i e => forecast_entry daily i = Ok e) indices es
    | Raise e => exists i, In i indices /\ forecast_entry daily i = Raise e
    end.
Proof.
  induction indices as [|i rest IH]; intros acc; cbn.
  - exists []. split; [now rewrite app_nil_r|constructor].
  - destruct (forecast_entry daily i) as [entry|e] eqn:He; cbn.
    + specialize (IH (acc ++ [entry])%list).
      destruct (forecast_loop daily rest (acc ++ [entry])%list) as [l|e].
      * destruct IH as (es & -> & Hall). exists (entry :: es). split.
        -- now rewrite <- app_assoc.
        -- now constructor.
      * destruct IH as (j & Hj & Hje). exists j. split; [now right|assumption].
    + exists i. split; [now left|assumption].
Qed.

Lemma forecast_loop_catchable daily indices acc :
  raises_catchable (forecast_loop daily indices acc).
Proof.
  intros e He. pose proof (forecast_loop_spec daily indices acc) as H.
  rewrite He in H. destruct H as (i & _ & Hi).
  exact (forecast_entry_catchable daily i e Hi).
Qed.

Lemma forecast_days_catchable data : raises_catchable (forecast_days data).
Proof.
  unfold forecast_days.
  repeat (apply rbind_catchable; [auto with catchable|intros ? _]).
  apply forecast_loop_catchable.
Qed.

Lemma Forall2_seq_nth {A} (P : nat -> A -> Prop) n :
  forall a es,
    Forall2 P (seq a n) es ->
    List.length es = n
    /\ forall i, (i < n)%nat -> exists e, nth_error es i = Some e /\ P (a + i)%nat e.
Proof.
  induction n as [|n IH]; intros a es H; cbn in H; inversion H; subst; cbn.
  - split; [reflexivity|]. intros i Hi. lia.
  - destruct (IH _ _ H4) as [Hlen Hnth]. split; [now rewrite Hlen|].
    intros [|i] Hi; cbn.
    + exists y. split; [reflexivity|]. now rewrite Nat.add_0_r.
    + destruct (Hnth i ltac:(lia)) as (e & He & HP). exists e. split; [assumption|].
      now replace (a + S i)%nat with (S a + i)%nat by lia.
Qed.

(** When the handler of the [try] block applies to everything the body can
    raise, the block returns the body's value or raises 502. *)
Lemma try_format_lift {A} (r : result A) w :
  raises_catchable r ->
  try_except (lift r) format_handler w =
  (match r with
   | Ok a => Ok a
   | Raise (Builtin b) => Raise (format_error b)
   | Raise e => Raise e
   end, w).
Proof.
  intros Hc. unfold try_except, lift. destruct r as [a|e]; [reflexivity|].
  destruct (Hc e eq_refl) as (b & -> & Hb).
  destruct b; try discriminate Hb; reflexivity.
Qed.

(** ** [get_current] and [get_forecast] on a 200 answer *)

Lemma get_current_run lat lon w r data :
  upstream w (current_request lat lon) = Responds r ->
  status_code r = 200 ->
  json_body r = Some data ->
  fst (get_current lat lon w) =
  match current_fields data with
  | Ok c => Ok c
  | Raise (Builtin b) => Raise (format_error b)
  | Raise e => Raise e
  end.
Proof.
  intros Hu Hs Hb. unfold get_current, current_request in *.
  rewrite (run_fetch_response _ _ _ _ _ Hu), Hs. cbn [Z.eqb Pos.eqb negb].
  unfold bind at 1. unfold lift at 1, resp_json. rewrite Hb.
  now rewrite (try_format_lift _ _ (current_fields_catchable data)).
Qed.

Lemma get_forecast_run lat lon days w r data :
  upstream w (forecast_request lat lon days) = Responds r ->
  status_code r = 200 ->
  json_body r = Some data ->
  fst (get_forecast lat lon days w) =
  match forecast_days data with
  | Ok l => Ok l
  | Raise (Builtin b) => Raise (format_error b)
  | Raise e => Raise e
  end.
Proof.
  intros Hu Hs Hb. unfold get_forecast, forecast_request in *.
  rewrite (run_fetch_response _ _ _ _ _ Hu), Hs. cbn [Z.eqb Pos.eqb negb].
  unfold bind at 1. unfold lift at 1, resp_json. rewrite Hb.
  now rewrite (try_format_lift _ _ (forecast_days_catchable data)).
Qed.

Lemma getitem_str_ok_inv v k x :
  getitem_str v k = Ok x -> exists kvs, v = PDict kvs /\ dict_lookup k kvs = Some x.
Proof.
  destruct v; cbn; try discriminate.
  destruct (dict_lookup k kvs) eqn:E; [|discriminate].
  intros [= ->]. eauto.
Qed.

Lemma current_fields_inv data c :
  current_fields data = Ok c -> current_verbatim data c.
Proof.
  unfold current_fields. intros H.
  destruct (getitem_str data "current") as [cur|] eqn:Hcur; [|discriminate H].
  destruct (getitem_str_ok_inv _ _ _ Hcur) as (kvs & -> & Hk).
  cbn [rbind] in H.
  destruct (getitem_str cur "weather_code") as [code|] eqn:Hcode; [|discriminate H].
  destruct (getitem_str_ok_inv _ _ _ Hcode) as (ckvs & -> & Hc).
  cbn [rbind getitem_str] in H.
  repeat match type of H with
         | context [dict_lookup ?k ckvs] =>
             let E := fresh "E" in
             destruct (dict_lookup k ckvs) eqn:E; cbn [rbind] in H; [|discriminate H]
         end.
  destruct (describe_weather_code code) eqn:Hd; cbn [rbind] in H; [|discriminate H].
  repeat match type of H with
         | context [dict_lookup ?k ckvs] =>
             let E := fresh "E" in
             destruct (dict_lookup k ckvs) eqn:E; cbn [rbind] in H; [|discriminate H]
         end.
  injection H as <-. exists kvs, ckvs. cbn. repeat split; assumption.
Qed.

Lemma current_complete_ok data :
  current_complete data = true -> exists c, current_fields data = Ok c.
Proof.
  unfold current_complete. destruct data as [| | | | | |kvs]; try discriminate.
  destruct (dict_lookup "current" kvs) as [[| | | | | |ckvs]|] eqn:Hcur; try discriminate.
  intros H. apply andb_prop in H as [Hkeys Hcode].
  unfold current_fields. cbn [getitem_str]. rewrite Hcur. cbn [rbind getitem_str].
  destruct (dict_lookup "weather_code" ckvs) as [code|]; [|discriminate Hcode].
  cbn [rbind]. destruct (describe_hashable _ Hcode) as [s Hs]. rewrite Hs.
  cbn in Hkeys. unfold has_key in Hkeys.
  repeat match type of Hkeys with
         | context [dict_lookup ?k ckvs] =>
             destruct (dict_lookup k ckvs); [|discriminate Hkeys]
         end.
  cbn. eauto.
Qed.

Lemma current_ok_complete data c :
  current_fields data = Ok c -> current_complete data = true.
Proof.
  intros H. destruct (current_fields_inv _ _ H)
    as (kvs & ckvs & -> & Hcur & Hw & H1 & H2 & H3 & H4 & H5 & H6 & H7 & Hd).
  unfold current_complete. rewrite Hcur. cbn. unfold has_key.
  rewrite Hw, H1, H2, H3, H4, H5, H6, H7. cbn.
  exact (describe_ok_hashable _ _ Hd).
Qed.

Lemma daily_at_ok_inv daily key i v :
  daily_at daily key i = Ok v ->
  exists dkvs arr, daily = PDict dkvs
                   /\ dict_lookup key dkvs = Some arr /\ getitem_int arr i = Ok v.
Proof.
  unfold daily_at. destruct (getitem_str daily key) as [arr|] eqn:E; [|discriminate].
  destruct (getitem_str_ok_inv _ _ _ E) as (dkvs & -> & Hk). cbn. eauto.
Qed.

Lemma forecast_entry_inv daily i e :
  forecast_entry daily i = Ok e -> day_verbatim daily i e.
Proof.
  unfold forecast_entry. intros H.
  destruct (daily_at daily "weather_code" i) as [code|] eqn:E0; [|discriminate H].
  cbn [rbind] in H.
  destruct (daily_at daily "time" i) eqn:E1; [|discriminate H]. cbn [rbind] in H.
  destruct (describe_weather_code code) eqn:Hd; [|discriminate H]. cbn [rbind] in H.
  destruct (daily_at daily "temperature_2m_max" i) eqn:E2; [|discriminate H].
  cbn [rbind] in H.
  destruct (daily_at daily "temperature_2m_min" i) eqn:E3; [|discriminate H].
  cbn [rbind] in H.
  destruct (daily_at daily "precipitation_sum" i) eqn:E4; [|discriminate H].
  cbn [rbind] in H.
  destruct (daily_at daily "precipitation_probability_max" i) eqn:E5; [|discriminate H].
  cbn [rbind] in H.
  destruct (daily_at daily "wind_speed_10m_max" i) eqn:E6; [|discriminate H].
  cbn [rbind] in H.
  injection H as <-. unfold day_verbatim. cbn. repeat split; assumption.
Qed.

(** What a returned forecast was built from. *)
Lemma forecast_days_inv data l :
  forecast_days data = Ok l ->
  exists kvs dkvs time,
    data = PDict kvs
    /\ dict_lookup "daily" kvs = Some (PDict dkvs)
    /\ dict_lookup "time" dkvs = Some time
    /\ py_len time = Ok (List.length l)
    /\ forall i, (i < List.length l)%nat ->
         exists e, nth_error l i = Some e /\ forecast_entry (PDict dkvs) i = Ok e.
Proof.
  unfold forecast_days. intros H.
  destruct (getitem_str data "daily") as [daily|] eqn:Hd; [|discriminate H].
  destruct (getitem_str_ok_inv _ _ _ Hd) as (kvs & -> & Hk). cbn [rbind] in H.
  destruct (getitem_str daily "time") as [time|] eqn:Ht; [|discriminate H].
  destruct (getitem_str_ok_inv _ _ _ Ht) as (dkvs & -> & Hkt). cbn [rbind] in H.
  destruct (py_len time) as [n|] eqn:Hn; [|discriminate H]. cbn [rbind] in H.
  pose proof (forecast_loop_spec (PDict dkvs) (seq 0 n) []) as Hspec.
  rewrite H in Hspec. destruct Hspec as (es & -> & Hall). change ([] ++ es)%list with es.
  destruct (Forall2_seq_nth _ _ _ _ Hall) as [Hlen Hnth].
  exists kvs, dkvs, time. rewrite Hlen. repeat split; assumption.
Qed.

(** When every index has an entry the forecast is returned. *)
Lemma forecast_days_complete kvs dkvs time n :
  dict_lookup "daily" kvs = Some (PDict dkvs) ->
  dict_lookup "time" dkvs = Some time ->
  py_len time = Ok n ->
  (forall i, (i < n)%nat -> exists e, forecast_entry (PDict dkvs) i = Ok e) ->
  exists l, forecast_days (PDict kvs) = Ok l.
Proof.
  intros Hd Ht Hn Hall. unfold forecast_days. cbn [getitem_str].
  rewrite Hd. cbn [rbind getitem_str]. rewrite Ht. cbn [rbind]. rewrite Hn. cbn [rbind].
  pose proof (forecast_loop_spec (PDict dkvs) (seq 0 n) []) as Hspec.
  destruct (forecast_loop (PDict dkvs) (seq 0 n) []) as [l|e]; [eauto|].
  destruct Hspec as (i & Hi & He). apply in_seq in Hi.
  destruct (Hall i ltac:(lia)) as [x Hx]. congruence.
Qed.

Lemma daily_at_list dkvs key arr i :
  dict_lookup key dkvs = Some (PList arr) ->
  daily_at (PDict dkvs) key i =
  match nth_error arr i with
  | Some x => Ok x
  | None => Raise (Builtin IndexError)
  end.
Proof. intros H. unfold daily_at. cbn. rewrite H. reflexivity. Qed.

Lemma daily_at_list_ok dkvs key arr i v :
  dict_lookup key dkvs = Some (PList arr) ->
  daily_at (PDict dkvs) key i = Ok v -> nth_error arr i = Some v.
Proof.
  intros H. rewrite (daily_at_list _ _ _ _ H).
  destruct (nth_error arr i); [now intros [= ->]|discriminate].
Qed.

Lemma entry_of_arrays dkvs a i e :
  supplies dkvs a -> forecast_entry (PDict dkvs) i = Ok e -> entry_at a i e.
Proof.
  intros (Ht & Hc & H1 & H2 & H3 & H4 & H5) He.
  destruct (forecast_entry_inv _ _ _ He) as (Ec & Et & Ed & E1 & E2 & E3 & E4 & E5).
  unfold entry_at. repeat split; try assumption; eauto using daily_at_list_ok.
Qed.

Lemma nth_error_below {A} (l : list A) i :
  (i < List.length l)%nat -> exists x, nth_error l i = Some x.
Proof.
  intros H. destruct (nth_error l i) eqn:E; [eauto|].
  apply nth_error_None in E. lia.
Qed.

Lemma arrays_have_entry dkvs a i :
  supplies dkvs a ->
  Forall (fun arr => (i < List.length arr)%nat) (all_arrays a) ->
  (forall c, nth_error (a_weather_code a) i = Some c -> hashable c = true) ->
  exists e, forecast_entry (PDict dkvs) i = Ok e.
Proof.
  intros (Ht & Hc & H1 & H2 & H3 & H4 & H5) Hlen Hh.
  unfold all_arrays in Hlen.
  repeat match goal with
         | H : Forall _ (_ :: _) |- _ => apply Forall_cons_iff in H as [? H]
         end.
  unfold forecast_entry.
  rewrite (daily_at_list _ _ _ _ Ht), (daily_at_list _ _ _ _ Hc),
    (daily_at_list _ _ _ _ H1), (daily_at_list _ _ _ _ H2),
    (daily_at_list _ _ _ _ H3), (daily_at_list _ _ _ _ H4),
    (daily_at_list _ _ _ _ H5).
  repeat match goal with
         | L : (i < List.length ?arr)%nat |- _ =>
             let x := fresh "x" in let E := fresh "E" in
             destruct (nth_error_below arr i L) as [x E]; rewrite E; clear L
         end.
  cbn [rbind].
  match goal with
  | E : nth_error (a_weather_code a) i = Some ?c |- _ =>
      destruct (describe_hashable c (Hh c E)) as [s ->]
  end.
  cbn [rbind]. eauto.
Qed.

Lemma short_array_no_entry dkvs a e :
  supplies dkvs a ->
  forall arr, In arr (all_arrays a) ->
  forecast_entry (PDict dkvs) (List.length arr) <> Ok e.
Proof.
  intros Hs arr Hin He.
  destruct (entry_of_arrays _ _ _ _ Hs He) as (Et & Ec & _ & E1 & E2 & E3 & E4 & E5).
  assert (Hnone : nth_error arr (List.length arr) = None)
    by (apply nth_error_None; lia).
  unfold all_arrays in Hin. cbn in Hin.
  repeat (destruct Hin as [<-|Hin]; [congruence|]). destruct Hin.
Qed.

Lemma daily_of_inv data dkvs :
  daily_of data = Some dkvs ->
  exists kvs, data = PDict kvs /\ dict_lookup "daily" kvs = Some (PDict dkvs).
Proof.
  unfold daily_of. destruct data as [| | | | | |kvs]; try discriminate.
  destruct (dict_lookup "daily" kvs) as [[| | | | | |d]|] eqn:E; try discriminate.
  intros [= ->]. eauto.
Qed.

Lemma forecast_days_daily data l :
  forecast_days data = Ok l ->
  exists dkvs time,
    daily_of data = Some dkvs
    /\ dict_lookup "time" dkvs = Some time
    /\ py_len time = Ok (List.length l)
    /\ forall i, (i < List.length l)%nat ->
         exists e, nth_error l i = Some e /\ forecast_entry (PDict dkvs) i = Ok e.
Proof.
  intros H. destruct (forecast_days_inv _ _ H) as (kvs & dkvs & time & -> & Hd & Ht & Hn & Hnth).
  exists dkvs, time. unfold daily_of. rewrite Hd. auto.
Qed.

(** The outcome of [get_forecast] on a 200 answer with a JSON body. *)
Lemma get_forecast_ok_iff lat lon days w r data l :
  upstream w (forecast_request lat lon days) = Responds r ->
  status_code r = 200 ->
  json_body r = Some data ->
  fst (get_forecast lat lon days w) = Ok l <-> forecast_days data = Ok l.
Proof.
  intros Hu Hs Hb. rewrite (get_forecast_run _ _ _ _ _ _ Hu Hs Hb).
  destruct (forecast_days data) as [l'|e] eqn:E.
  - split; intros [= ->]; reflexivity.
  - destruct (forecast_days_catchable _ _ E) as (b & -> & _). split; discriminate.
Qed.

Lemma get_forecast_502 lat lon days w r data :
  upstream w (forecast_request lat lon days) = Responds r ->
  status_code r = 200 ->
  json_body r = Some data ->
  (forall l, forecast_days data <> Ok l) ->
  exists b, fst (get_forecast lat lon days w) = Raise (format_error b).
Proof.
  intros Hu Hs Hb Hno. rewrite (get_forecast_run _ _ _ _ _ _ Hu Hs Hb).
  destruct (forecast_days data) as [l|e] eqn:E; [now destruct (Hno l)|].
  destruct (forecast_days_catchable _ _ E) as (b & -> & _). eauto.
Qed.

Lemma try_format_caught {A} (r : result A) w :
  try_except (lift r) format_handler w = (caught r, w).
Proof.
  unfold try_except, lift, caught. destruct r as [a|[st d|b|h]]; try reflexivity.
  destruct b; reflexivity.
Qed.

Lemma run_fetch_answer {A} (u : string) ps (k : pyval -> M A)
      (decode : pyval -> result A) w :
  (forall data w', fst (k data w') = decode data) ->
  fst (bind (try_except (client_get u ps) upstream_handler)
         (fun resp =>
            if negb (Z.eqb (status_code resp) 200) then
              raise (HTTPException 502 (Text "Weather data source unavailable"))
            else bind (lift (resp_json resp)) k) w) =
  answer_to decode (upstream w {| url := u; params := ps |}).
Proof.
  intros Hk. unfold answer_to.
  destruct (upstream w {| url := u; params := ps |}) as [r|e] eqn:Hu.
  - rewrite (run_fetch_response _ _ _ _ _ Hu).
    destruct (Z.eqb (status_code r) 200); [|reflexivity]. cbn [negb].
    unfold bind, lift, resp_json. destruct (json_body r); [apply Hk|reflexivity].
  - destruct (is_TimeoutException e) eqn:Ht.
    + now rewrite (run_fetch_timeout _ _ _ _ _ Hu Ht).
    + destruct (is_HTTPError e) eqn:Hh.
      * now rewrite (run_fetch_http_error _ _ _ _ _ Hu Ht Hh).
      * now rewrite (run_fetch_uncaught _ _ _ _ _ Hu Hh).
Qed.

Lemma get_forecast_answer lat lon days w :
  fst (get_forecast lat lon days w) =
  answer_to (fun data => caught (forecast_days data))
            (upstream w (forecast_request lat lon days)).
Proof.
  unfold get_forecast, forecast_request. apply run_fetch_answer.
  intros data w'. now rewrite try_format_caught.
Qed.

Lemma get_current_answer lat lon w :
  fst (get_current lat lon w) =
  answer_to (fun data => caught (current_fields data))
            (upstream w (current_request lat lon)).
Proof.
  unfold get_current, current_request. apply run_fetch_answer.
  intros data w'. now rewrite try_format_caught.
Qed.

Lemma missing_key_no_entry dkvs k i e :
  In k daily_keys -> dict_lookup k dkvs = None ->
  forecast_entry (PDict dkvs) i <> Ok e.
Proof.
  intros Hk Hnone He.
  destruct (forecast_entry_inv _ _ _ He) as (E0 & E1 & _ & E2 & E3 & E4 & E5 & E6).
  unfold daily_keys in Hk. cbn in Hk.
  repeat (destruct Hk as [<-|Hk];
          [match goal with
           | E : daily_at _ ?key _ = Ok _, N : dict_lookup ?key _ = None |- _ =>
               destruct (daily_at_ok_inv _ _ _ _ E) as (d & arr & [= <-] & Hl & _);
               congruence
           end|]).
  destruct Hk.
Qed.

Lemma failed_lookup_no_entry daily k i e :
  In k daily_keys -> (forall v, daily_at daily k i <> Ok v) ->
  forecast_entry daily i <> Ok e.
Proof.
  intros Hk Hfail He.
  destruct (forecast_entry_inv _ _ _ He) as (E0 & E1 & _ & E2 & E3 & E4 & E5 & E6).
  unfold daily_keys in Hk. cbn in Hk.
  repeat (destruct Hk as [<-|Hk]; [eapply Hfail; eassumption|]).
  destruct Hk.
Qed.

Lemma forecast_days_no_daily data l :
  daily_of data = None -> forecast_days data <> Ok l.
Proof.
  intros Hn H. destruct (forecast_days_daily _ _ H) as (dkvs & _ & Hd & _). congruence.
Qed.

Lemma forecast_days_no_time data dkvs l :
  daily_of data = Some dkvs -> dict_lookup "time" dkvs = None ->
  forecast_days data <> Ok l.
Proof.
  intros Hd Hn H. destruct (forecast_days_daily _ _ H) as (d & t & Hd' & Ht & _).
  congruence.
Qed.

Lemma forecast_days_entry_needed data dkvs time n i l :
  daily_of data = Some dkvs -> dict_lookup "time" dkvs = Some time ->
  py_len time = Ok n -> (i < n)%nat ->
  (forall e, forecast_entry (PDict dkvs) i <> Ok e) ->
  forecast_days data <> Ok l.
Proof.
  intros Hd Ht Hn Hi Hfail H.
  destruct (forecast_days_daily _ _ H) as (d & t & Hd' & Ht' & Hn' & Hnth).
  rewrite Hd in Hd'. injection Hd' as <-. rewrite Ht in Ht'. injection Ht' as <-.
  rewrite Hn in Hn'. injection Hn' as ->.
  destruct (Hnth i Hi) as (e & _ & He). exact (Hfail e He).
Qed.

(** Arrays that reach to the end of the time array give one entry per
    element of the time array. *)
Lemma forecast_of_arrays kvs dkvs a :
  dict_lookup "daily" kvs = Some (PDict dkvs) ->
  supplies dkvs a ->
  Forall (fun arr => (List.length (a_time a) <= List.length arr)%nat) (all_arrays a) ->
  (forall i c, (i < List.length (a_time a))%nat ->
               nth_error (a_weather_code a) i = Some c -> hashable c = true) ->
  exists l, forecast_days (PDict kvs) = Ok l
            /\ List.length l = List.length (a_time a)
            /\ forall i, (i < List.length (a_time a))%nat ->
                 exists e, nth_error l i = Some e /\ entry_at a i e.
Proof.
  intros Hd Hs Hlen Hh.
  assert (Ht : dict_lookup "time" dkvs = Some (PList (a_time a))) by apply Hs.
  destruct (forecast_days_complete kvs dkvs (PList (a_time a)) (List.length (a_time a))
              Hd Ht eq_refl) as [l Hl].
  { intros i Hi. apply (arrays_have_entry dkvs a i Hs).
    - eapply Forall_impl; [|exact Hlen]. cbn. intros arr Harr. lia.
    - intros c Hc. exact (Hh i c Hi Hc). }
  exists l. destruct (forecast_days_inv _ _ Hl)
    as (kvs' & dkvs' & time' & [= <-] & Hd' & Ht' & Hn' & Hnth).
  rewrite Hd in Hd'. injection Hd' as <-. rewrite Ht in Ht'. injection Ht' as <-.
  cbn in Hn'. injection Hn' as Hn'. split; [assumption|]. split; [now symmetry|].
  intros i Hi. rewrite Hn' in Hi. destruct (Hnth i Hi) as (e & He & Hent).
  exists e. split; [assumption|]. exact (entry_of_arrays _ _ _ _ Hs Hent).
Qed.

(** C4 (amended). On a 200 answer with a JSON body, [get_current] raises
    [HTTPException] 502 when the body is not an object, has no [current]
    object, lacks one of the eight keys read from it, or has a list or an
    object as [weather_code]; otherwise it returns, and every field it
    returns is the upstream value at its key.  [get_forecast] returns or
    raises 502; it raises 502 when the body has no [daily] object, when
    [daily] has no [time] or a [time] without a length, and when [time] is
    not empty and one of the seven keys is absent; every field of every entry
    it returns is the upstream value at the entry's index. *)
Theorem malformed_body_fails_closed :
  (forall lat lon w r data,
      upstream w (current_request lat lon) = Responds r ->
      status_code r = 200 ->
      json_body r = Some data ->
      (current_complete data = false ->
       exists b, fst (get_current lat lon w) = Raise (format_error b))
      /\ (current_complete data = true ->
          exists c, fst (get_current lat lon w) = Ok c)
      /\ (forall c, fst (get_current lat lon w) = Ok c -> current_verbatim data c))
  /\ (forall lat lon days w r data,
      upstream w (forecast_request lat lon days) = Responds r ->
      status_code r = 200 ->
      json_body r = Some data ->
      ((exists l, fst (get_forecast lat lon days w) = Ok l)
       \/ (exists b, fst (get_forecast lat lon days w) = Raise (format_error b)))
      /\ (daily_of data = None ->
          exists b, fst (get_forecast lat lon days w) = Raise (format_error b))
      /\ (forall dkvs,
          daily_of data = Some dkvs -> dict_lookup "time" dkvs = None ->
          exists b, fst (get_forecast lat lon days w) = Raise (format_error b))
      /\ (forall dkvs time e,
          daily_of data = Some dkvs -> dict_lookup "time" dkvs = Some time ->
          py_len time = Raise e ->
          exists b, fst (get_forecast lat lon days w) = Raise (format_error b))
      /\ (forall dkvs time n k,
          daily_of data = Some dkvs -> dict_lookup "time" dkvs = Some time ->
          py_len time = Ok (S n) ->
          In k daily_keys -> dict_lookup k dkvs = None ->
          exists b, fst (get_forecast lat lon days w) = Raise (format_error b))
      /\ (forall l,
          fst (get_forecast lat lon days w) = Ok l ->
          exists dkvs,
            daily_of data = Some dkvs
            /\ forall i e, nth_error l i = Some e -> day_verbatim (PDict dkvs) i e)).
Proof.
  split.
  - intros lat lon w r data Hu Hs Hb.
    rewrite (get_current_run _ _ _ _ _ Hu Hs Hb).
    destruct (current_fields data) as [c|e] eqn:Hc.
    + pose proof (current_ok_complete _ _ Hc) as Hcomp.
      repeat split.
      * congruence.
      * eauto.
      * intros c' [= <-]. now apply current_fields_inv.
    + destruct (current_fields_catchable _ _ Hc) as (b & -> & _).
      repeat split.
      * eauto.
      * intros Hcomp. destruct (current_complete_ok _ Hcomp) as [c Hc']. congruence.
      * discriminate.
  - intros lat lon days w r data Hu Hs Hb.
    pose proof (get_forecast_502 _ _ _ _ _ _ Hu Hs Hb) as H502.
    pose proof (fun l => get_forecast_ok_iff lat lon days w r data l Hu Hs Hb) as Hiff.
    split; [|split; [|split; [|split; [|split]]]].
    + destruct (forecast_days data) as [l|e] eqn:E.
      * left. exists l. now apply Hiff.
      * right. apply H502. congruence.
    + intros Hn. apply H502. intros l. now apply forecast_days_no_daily.
    + intros dkvs Hd Ht. apply H502. intros l.
      exact (forecast_days_no_time _ _ _ Hd Ht).
    + intros dkvs time e Hd Ht Hlen. apply H502. intros l Hl.
      destruct (forecast_days_daily _ _ Hl) as (d & t & Hd' & Ht' & Hn' & _).
      congruence.
    + intros dkvs time n k Hd Ht Hlen Hk Hnone. apply H502. intros l.
      apply (forecast_days_entry_needed data dkvs time (S n) 0%nat l Hd Ht Hlen);
        [lia|].
      intros e. exact (missing_key_no_entry _ _ _ _ Hk Hnone).
    + intros l Hl. apply Hiff in Hl.
      destruct (forecast_days_daily _ _ Hl) as (dkvs & t & Hd & _ & _ & Hnth).
      exists dkvs. split; [assumption|]. intros i e Hi.
      assert (Hlt : (i < List.length l)%nat)
        by (apply nth_error_Some; congruence).
      destruct (Hnth i Hlt) as (e' & He' & Hent).
      rewrite Hi in He'. injection He' as <-. now apply forecast_entry_inv.
Qed.

(** C7 (amended). When the daily object supplies seven lists of length [n]
    whose weather codes are scalars, [get_forecast lat lon n] returns exactly
    [n] entries, entry [i] holding element [i] of every list and the
    condition of its own code.  On any 200 answer with a JSON body: without a
    [daily] object or without [time] the call raises 502; if for an index
    below the length of [time] one of the seven lookups [daily[key][i]] does
    not yield a value, the call raises 502; and a returned list has one entry
    for every index of [time]. *)
Theorem forecast_all_or_nothing :
  (forall lat lon n w r kvs dkvs a,
      upstream w (forecast_request lat lon (Z.of_nat n)) = Responds r ->
      status_code r = 200 ->
      json_body r = Some (PDict kvs) ->
      dict_lookup "daily" kvs = Some (PDict dkvs) ->
      supplies dkvs a ->
      Forall (fun arr => List.length arr = n) (all_arrays a) ->
      Forall (fun c => hashable c = true) (a_weather_code a) ->
      exists l,
        fst (get_forecast lat lon (Z.of_nat n) w) = Ok l
        /\ List.length l = n
        /\ forall i, (i < n)%nat -> exists e, nth_error l i = Some e /\ entry_at a i e)
  /\ (forall lat lon days w r data,
      upstream w (forecast_request lat lon days) = Responds r ->
      status_code r = 200 ->
      json_body r = Some data ->
      (daily_of data = None ->
       exists b, fst (get_forecast lat lon days w) = Raise (format_error b))
      /\ (forall dkvs,
          daily_of data = Some dkvs -> dict_lookup "time" dkvs = None ->
          exists b, fst (get_forecast lat lon days w) = Raise (format_error b))
      /\ (forall dkvs time n i k,
          daily_of data = Some dkvs -> dict_lookup "time" dkvs = Some time ->
          py_len time = Ok n -> (i < n)%nat ->
          In k daily_keys -> (forall v, daily_at (PDict dkvs) k i <> Ok v) ->
          exists b, fst (get_forecast lat lon days w) = Raise (format_error b))
      /\ (forall l,
          fst (get_forecast lat lon days w) = Ok l ->
          exists dkvs time,
            daily_of data = Some dkvs
            /\ dict_lookup "time" dkvs = Some time
            /\ py_len time = Ok (List.length l)
            /\ forall i, (i < List.length l)%nat ->
                 exists e, nth_error l i = Some e /\ day_verbatim (PDict dkvs) i e)).
Proof.
  split.
  - intros lat lon n w r kvs dkvs a Hu Hs Hb Hd Hsup Hlen Hhash.
    assert (Hn : List.length (a_time a) = n).
    { unfold all_arrays in Hlen. now apply Forall_cons_iff in Hlen as [? _]. }
    destruct (forecast_of_arrays kvs dkvs a Hd Hsup) as (l & Hl & Hll & Hnth).
    + eapply Forall_impl; [|exact Hlen]. cbn. intros arr Harr. lia.
    + intros i c _ Hc. rewrite Forall_forall in Hhash. apply Hhash.
      eapply nth_error_In; eassumption.
    + exists l. split; [now apply (get_forecast_ok_iff _ _ _ _ _ _ _ Hu Hs Hb)|].
      rewrite <- Hn. split; assumption.
  - intros lat lon days w r data Hu Hs Hb.
    pose proof (get_forecast_502 _ _ _ _ _ _ Hu Hs Hb) as H502.
    split; [|split; [|split]].
    + intros Hn. apply H502. intros l. now apply forecast_days_no_daily.
    + intros dkvs Hd Ht. apply H502. intros l.
      exact (forecast_days_no_time _ _ _ Hd Ht).
    + intros dkvs time n i k Hd Ht Hlen Hi Hk Hfail. apply H502. intros l.
      apply (forecast_days_entry_needed data dkvs time n i l Hd Ht Hlen Hi).
      intros e. exact (failed_lookup_no_entry _ _ _ _ Hk Hfail).
    + intros l Hl. apply (get_forecast_ok_iff _ _ _ _ _ _ _ Hu Hs Hb) in Hl.
      destruct (forecast_days_daily _ _ Hl) as (dkvs & t & Hd & Ht & Hn & Hnth).
      exists dkvs, t. repeat split; try assumption.
      intros i Hi. destruct (Hnth i Hi) as (e & He & Hent).
      exists e. split; [assumption|]. now apply forecast_entry_inv.
Qed.

(** C9. A forecast returned on a 200 answer has as many entries as the
    upstream [time] array has elements; [days] enters the request only, so
    equal upstream outcomes give equal results whatever [days] was.  When the
    other six arrays are at least as long as [time] the result has one entry
    per element of [time], built from the leading elements; when one of them
    is shorter than [time] the call raises 502. *)
Theorem forecast_length_follows_time :
  (forall lat lon days w r data l,
      upstream w (forecast_request lat lon days) = Responds r ->
      status_code r = 200 ->
      json_body r = Some data ->
      fst (get_forecast lat lon days w) = Ok l ->
      exists dkvs time,
        daily_of data = Some dkvs
        /\ dict_lookup "time" dkvs = Some time
        /\ py_len time = Ok (List.length l))
  /\ (forall lat lon days days' w w',
      upstream w (forecast_request lat lon days)
      = upstream w' (forecast_request lat lon days') ->
      fst (get_forecast lat lon days w) = fst (get_forecast lat lon days' w'))
  /\ (forall lat lon days w r kvs dkvs a,
      upstream w (forecast_request lat lon days) = Responds r ->
      status_code r = 200 ->
      json_body r = Some (PDict kvs) ->
      dict_lookup "daily" kvs = Some (PDict dkvs) ->
      supplies dkvs a ->
      (Forall (fun arr => (List.length (a_time a) <= List.length arr)%nat) (all_arrays a) ->
       (forall i c, (i < List.length (a_time a))%nat ->
                    nth_error (a_weather_code a) i = Some c -> hashable c = true) ->
       exists l,
         fst (get_forecast lat lon days w) = Ok l
         /\ List.length l = List.length (a_time a)
         /\ forall i, (i < List.length (a_time a))%nat ->
              exists e, nth_error l i = Some e /\ entry_at a i e)
      /\ (Exists (fun arr => (List.length arr < List.length (a_time a))%nat) (all_arrays a) ->
          exists b, fst (get_forecast lat lon days w) = Raise (format_error b))).
Proof.
  split; [|split].
  - intros lat lon days w r data l Hu Hs Hb Hl.
    apply (get_forecast_ok_iff _ _ _ _ _ _ _ Hu Hs Hb) in Hl.
    destruct (forecast_days_daily _ _ Hl) as (dkvs & t & Hd & Ht & Hn & _).
    exists dkvs, t. auto.
  - intros lat lon days days' w w' Heq.
    rewrite !get_forecast_answer. now rewrite Heq.
  - intros lat lon days w r kvs dkvs a Hu Hs Hb Hd Hsup. split.
    + intros Hlen Hhash.
      destruct (forecast_of_arrays kvs dkvs a Hd Hsup Hlen Hhash) as (l & Hl & Hll & Hnth).
      exists l. repeat split; try assumption.
      now apply (get_forecast_ok_iff _ _ _ _ _ _ _ Hu Hs Hb).
    + intros Hshort. apply Exists_exists in Hshort as (arr & Hin & Hlt).
      apply (get_forecast_502 _ _ _ _ _ _ Hu Hs Hb). intros l.
      assert (Ht : dict_lookup "time" dkvs = Some (PList (a_time a))) by apply Hsup.
      apply (forecast_days_entry_needed (PDict kvs) dkvs (PList (a_time a))
               (List.length (a_time a)) (List.length arr) l); try assumption.
      * unfold daily_of. now rewrite Hd.
      * reflexivity.
      * intros e. exact (short_array_no_entry dkvs a e Hsup arr Hin).
Qed.

(** ** [_resolve_location] *)

(** C8. With both coordinates [_resolve_location] returns the city name when
    one is given and the text ["lat,lon"] otherwise, an empty country and the
    two coordinates, and sends no request; with a coordinate missing and a
    city name given it returns what [geocode] returns for that city, or
    raises what [geocode] raises; with neither it raises [HTTPException] 400
    and sends no request. *)
Theorem resolve_location_spec :
  (forall city lat lon w,
      _resolve_location city (Some lat) (Some lon) w =
      (Ok (PStr match city_given city with
                | Some c => c
                | None => coordinate_name lat lon
                end,
           PStr "", PFloat lat, PFloat lon),
       w))
  /\ (forall city c lat lon w,
      lat = None \/ lon = None ->
      city_given city = Some c ->
      _resolve_location city lat lon w =
      match geocode c w with
      | (Ok geo, w') => (Ok (name geo, country geo, latitude geo, longitude geo), w')
      | (Raise e, w') => (Raise e, w')
      end)
  /\ (forall city lat lon w,
      lat = None \/ lon = None ->
      city_given city = None ->
      _resolve_location city lat lon w = (Raise bad_request, w)).
Proof.
  split; [|split].
  - intros [c|] lat lon w; unfold _resolve_location, city_given, ret; cbn [truthy];
      [destruct (String.eqb c "")|]; reflexivity.
  - intros [c'|] c lat lon w Hmiss Hc; unfold city_given in Hc; [|discriminate Hc].
    destruct (String.eqb c' "") eqn:E; [discriminate Hc|]. injection Hc as ->.
    unfold _resolve_location. cbn [truthy]. rewrite E. cbn [negb].
    unfold bind, ret.
    destruct Hmiss as [-> | ->]; [|destruct lat];
      destruct (geocode c w) as [[geo|e] w']; reflexivity.
  - intros [c|] lat lon w Hmiss Hc; unfold city_given in Hc.
    + destruct (String.eqb c "") eqn:E; [|discriminate Hc].
      unfold _resolve_location. cbn [truthy]. rewrite E. cbn [negb].
      destruct Hmiss as [-> | ->]; [|destruct lat]; reflexivity.
    + unfold _resolve_location.
      destruct Hmiss as [-> | ->]; [|destruct lat]; reflexivity.
Qed.

(** ** The payment gate *)

Lemma priced_accepts m p rc :
  lookup_pricing m p = Some rc -> accepts rc = [PAYMENT].
Proof.
  unfold lookup_pricing, routes. cbn [route_get].
  destruct (String.eqb (m ++ " " ++ p) "GET /weather/current"); [now intros [= <-]|].
  destruct (String.eqb (m ++ " " ++ p) "GET /weather/forecast"); [now intros [= <-]|].
  discriminate.
Qed.

(** C1. A [GET] request to [/weather/current] or [/weather/forecast] whose
    proof, if any, the facilitator does not find valid is answered 402 with
    the route's content type and metadata and with every requirement
    configured for the route, whatever the application below the gate is and
    without any request being sent upstream; a [GET /health] request is
    passed to [health_check], whose status is 200 and not 402, whatever the
    environment configures. *)
Theorem unpaid_request_challenged :
  (forall (inner : App) rq w,
      method rq = "GET" ->
      path rq = "/weather/current" \/ path rq = "/weather/forecast" ->
      (forall proof, payment_proof rq = Some proof ->
                     facilitator_verify proof PAYMENT <> Valid) ->
      exists rc,
        lookup_pricing (method rq) (path rq) = Some rc
        /\ PaymentMiddlewareASGI inner rq w = (challenge rc, w)
        /\ status (challenge rc) = 402
        /\ forall o, In o (accepts rc) ->
             exists opts info ext,
               body (challenge rc) = PaymentRequired opts info ext /\ In o opts)
  /\ (forall (other : App) rq w,
      method rq = "GET" ->
      path rq = "/health" ->
      PaymentMiddlewareASGI (app other) rq w = (health_check, w)
      /\ status health_check = 200
      /\ status (fst (PaymentMiddlewareASGI (app other) rq w)) <> 402).
Proof.
  split.
  - intros inner rq w Hm Hp Hproof.
    destruct (lookup_pricing (method rq) (path rq)) as [rc|] eqn:Hrc.
    + exists rc. split; [reflexivity|].
      pose proof (priced_accepts _ _ _ Hrc) as Hacc.
      split; [|split; [reflexivity|]].
      * unfold PaymentMiddlewareASGI, evaluate. rewrite Hrc.
        destruct (payment_proof rq) as [proof|] eqn:Hpp; [|reflexivity].
        rewrite Hacc. cbn [find].
        specialize (Hproof proof eq_refl).
        destruct (facilitator_verify proof PAYMENT); [contradiction| |]; reflexivity.
      * intros o Ho. cbn. eauto.
    + exfalso. rewrite Hm in Hrc.
      destruct Hp as [Hp|Hp]; rewrite Hp in Hrc; discriminate Hrc.
  - intros other rq w Hm Hp.
    assert (Heq : PaymentMiddlewareASGI (app other) rq w = (health_check, w)).
    { unfold PaymentMiddlewareASGI, evaluate. rewrite Hm, Hp.
      change (lookup_pricing "GET" "/health") with (@None RouteConfig).
      unfold app. now rewrite Hm, Hp. }
    rewrite Heq. repeat split. discriminate.
Qed.

(** * Further properties *)

(** ** One request per operation *)

Lemma run_fetch_full {A} (u : string) ps (k : pyval -> M A)
      (decode : pyval -> result A) w :
  (forall data w', k data w' = (decode data, w')) ->
  bind (try_except (client_get u ps) upstream_handler)
       (fun resp =>
          if negb (Z.eqb (status_code resp) 200) then
            raise (HTTPException 502 (Text "Weather data source unavailable"))
          else bind (lift (resp_json resp)) k) w =
  (answer_to decode (upstream w {| url := u; params := ps |}),
   (w ++ [{| url := u; params := ps |}])%list).
Proof.
  intros Hk. unfold answer_to.
  destruct (upstream w {| url := u; params := ps |}) as [r|e] eqn:Hu.
  - rewrite (run_fetch_response _ _ _ _ _ Hu).
    destruct (Z.eqb (status_code r) 200); [|reflexivity]. cbn [negb].
    unfold bind, lift, resp_json. destruct (json_body r); [apply Hk|reflexivity].
  - destruct (is_TimeoutException e) eqn:Ht.
    + now rewrite (run_fetch_timeout _ _ _ _ _ Hu Ht).
    + destruct (is_HTTPError e) eqn:Hh.
      * now rewrite (run_fetch_http_error _ _ _ _ _ Hu Ht Hh).
      * now rewrite (run_fetch_uncaught _ _ _ _ _ Hu Hh).
Qed.

Lemma geocode_full city w :
  geocode city w =
  (answer_to (geocode_decode city) (upstream w (geocode_request city)),
   (w ++ [geocode_request city])%list).
Proof.
  unfold geocode, geocode_request. apply run_fetch_full.
  intros data w'. unfold geocode_decode, bind, lift, raise, ret.
  destruct (get_method data "results" PNone) as [results|]; cbn [rbind]; [|reflexivity].
  destruct (negb (truthy results)); [reflexivity|].
  destruct (getitem_int results 0) as [hit|]; cbn [rbind]; [|reflexivity].
  destruct (getitem_str hit "name"); cbn [rbind]; [|reflexivity].
  destruct (get_method hit "country" (PStr "")); cbn [rbind]; [|reflexivity].
  destruct (getitem_str hit "latitude"); cbn [rbind]; [|reflexivity].
  destruct (getitem_str hit "longitude"); reflexivity.
Qed.

Lemma get_current_full lat lon w :
  get_current lat lon w =
  (answer_to (fun data => caught (current_fields data))
     (upstream w (current_request lat lon)),
   (w ++ [current_request lat lon])%list).
Proof.
  unfold get_current, current_request. apply run_fetch_full.
  intros data w'. apply try_format_caught.
Qed.

Lemma get_forecast_full lat lon days w :
  get_forecast lat lon days w =
  (answer_to (fun data => caught (forecast_days data))
     (upstream w (forecast_request lat lon days)),
   (w ++ [forecast_request lat lon days])%list).
Proof.
  unfold get_forecast, forecast_request. apply run_fetch_full.
  intros data w'. apply try_format_caught.
Qed.

(** X1. Whatever the upstream does, each of [geocode], [get_current] and
    [get_forecast] sends exactly one request and leaves the earlier ones in
    place: to the geocoding URL with [name], [count] 1, [language] and
    [format], resp. to the forecast URL with the coordinates and the field
    list, [forecast_days] being [days] as passed.  Nothing is retried. *)
Theorem one_request_per_operation :
  (forall city w,
      snd (geocode city w) =
      (w ++ [{| url := "https://geocoding-api.open-meteo.com/v1/search";
                params := [("name", PStr city); ("count", PInt 1);
                           ("language", PStr "en"); ("format", PStr "json")] |}])%list)
  /\ (forall lat lon w,
      snd (get_current lat lon w) =
      (w ++ [{| url := "https://api.open-meteo.com/v1/forecast";
                params := [("latitude", lat); ("longitude", lon);
                           ("current", PStr CURRENT_VARS)] |}])%list)
  /\ (forall lat lon days w,
      snd (get_forecast lat lon days w) =
      (w ++ [{| url := "https://api.open-meteo.com/v1/forecast";
                params := [("latitude", lat); ("longitude", lon);
                           ("daily", PStr DAILY_VARS);
                           ("forecast_days", PInt days)] |}])%list).
Proof.
  repeat split; intros.
  - now rewrite geocode_full.
  - now rewrite get_current_full.
  - now rewrite get_forecast_full.
Qed.

(** ** The exceptions an operation can end in *)

Lemma caught_fault {A} (r : result A) e :
  raises_catchable r -> caught r = Raise e -> exists b, e = format_error b.
Proof.
  intros Hc. destruct r as [a|e']; [discriminate|].
  destruct (Hc e' eq_refl) as (b & -> & Hb). cbn. rewrite Hb.
  intros [= <-]. eauto.
Qed.

Lemma answer_fault {A} (decode : pyval -> result A) (P : exn -> Prop) o e :
  (forall data e', decode data = Raise e' -> P e') ->
  (forall d, P (HTTPException 502 d)) ->
  (forall d, P (HTTPException 504 d)) ->
  P (Builtin JSONDecodeError) ->
  (forall h, is_HTTPError h = false -> P (Httpx h)) ->
  answer_to decode o = Raise e -> P e.
Proof.
  intros Hdec H502 H504 Hjson Hx. unfold answer_to. destruct o as [r|h].
  - destruct (Z.eqb (status_code r) 200).
    + destruct (json_body r) as [data|]; [apply Hdec|now intros [= <-]].
    + now intros [= <-].
  - destruct (is_TimeoutException h); [now intros [= <-]|].
    destruct (is_HTTPError h) eqn:Hh; [now intros [= <-]|].
    intros [= <-]. now apply Hx.
Qed.

Lemma current_answer_fault o e :
  answer_to (fun data => caught (current_fields data)) o = Raise e -> client_fault e.
Proof.
  apply answer_fault; cbn; auto.
  intros data e' H.
  destruct (caught_fault _ _ (current_fields_catchable data) H) as [b ->].
  cbn. auto.
Qed.

Lemma forecast_answer_fault o e :
  answer_to (fun data => caught (forecast_days data)) o = Raise e -> client_fault e.
Proof.
  apply answer_fault; cbn; auto.
  intros data e' H.
  destruct (caught_fault _ _ (forecast_days_catchable data) H) as [b ->].
  cbn. auto.
Qed.

(** X2. When [get_current] or [get_forecast] does not return, it raises
    [HTTPException] 502 or 504, the decode error of a body that is not JSON,
    or an httpx exception outside the [HTTPError] hierarchy: never
    [KeyError], [TypeError] or [IndexError], and never another status. *)
Theorem client_faults :
  (forall lat lon w e, fst (get_current lat lon w) = Raise e -> client_fault e)
  /\ (forall lat lon days w e,
         fst (get_forecast lat lon days w) = Raise e -> client_fault e).
Proof.
  split.
  - intros lat lon w e. rewrite get_current_full. apply current_answer_fault.
  - intros lat lon days w e. rewrite get_forecast_full. apply forecast_answer_fault.
Qed.

Lemma geocode_decode_fault city data e :
  geocode_decode city data = Raise e -> geocode_fault e.
Proof.
  unfold geocode_decode.
  destruct data as [| | | | | |kvs]; cbn [get_method rbind];
    try (intros [= <-]; cbn; discriminate).
  fold (results_of kvs).
  assert (Hg : match dict_lookup "results" kvs with
               | Some x => Ok x | None => Ok PNone end = Ok (results_of kvs))
    by (unfold results_of; now destruct (dict_lookup "results" kvs)).
  rewrite Hg. cbn [rbind].
  destruct (truthy (results_of kvs)) eqn:Ht; cbn [negb];
    [|intros [= <-]; cbn; auto].
  destruct (results_of kvs) as [| | | |s|l|rk]; cbn [getitem_int rbind];
    try (intros [= <-]; cbn; discriminate).
  - destruct s as [|c s]; [discriminate Ht|]. cbn.
    intros [= <-]. cbn. discriminate.
  - destruct l as [|hit rest]; [discriminate Ht|]. cbn [nth_error rbind].
    destruct hit as [| | | | | |hk]; cbn [getitem_str rbind];
      try (intros [= <-]; cbn; discriminate).
    destruct (dict_lookup "name" hk); cbn [rbind];
      [|intros [= <-]; cbn; discriminate].
    cbn [get_method].
    destruct (dict_lookup "country" hk); cbn [rbind];
      (destruct (dict_lookup "latitude" hk); cbn [rbind];
       [|intros [= <-]; cbn; discriminate];
       destruct (dict_lookup "longitude" hk); cbn [rbind];
       [discriminate|intros [= <-]; cbn; discriminate]).
Qed.

Lemma geocode_answer_fault city o e :
  answer_to (geocode_decode city) o = Raise e -> geocode_fault e.
Proof.
  apply answer_fault; cbn; auto; try discriminate.
  intros data e'. apply geocode_decode_fault.
Qed.

(** X3. When [geocode] does not return, it raises [HTTPException] 404, 502
    or 504, a built-in exception other than [IndexError], or an httpx
    exception outside the [HTTPError] hierarchy. *)
Theorem geocode_faults :
  forall city w e, fst (geocode city w) = Raise e -> geocode_fault e.
Proof.
  intros city w e. rewrite geocode_full. apply geocode_answer_fault.
Qed.

(** ** When [geocode] finds nothing, and when it finds something *)

Lemma answer_object {A} (decode : pyval -> result A) o kvs :
  object_of o = Some kvs -> answer_to decode o = decode (PDict kvs).
Proof.
  unfold object_of, answer_to. destruct o as [r|h]; [|discriminate].
  destruct (Z.eqb (status_code r) 200); [|discriminate].
  destruct (json_body r) as [[| | | | | |kvs']|]; try discriminate.
  now intros [= ->].
Qed.

Lemma geocode_decode_results city kvs :
  geocode_decode city (PDict kvs) =
  if truthy (results_of kvs) then
    let* hit := getitem_int (results_of kvs) 0 in
    let* name_ := getitem_str hit "name" in
    let* country_ := get_method hit "country" (PStr "") in
    let* latitude_ := getitem_str hit "latitude" in
    let* longitude_ := getitem_str hit "longitude" in
    Ok {| name := name_; country := country_;
          latitude := latitude_; longitude := longitude_ |}
  else Raise (HTTPException 404 (Text ("City not found: " ++ city))).
Proof.
  unfold geocode_decode, results_of. cbn [get_method].
  destruct (dict_lookup "results" kvs) as [v|]; cbn [rbind]; [|reflexivity].
  now destruct (truthy v).
Qed.

Lemma geocode_decode_http city data st d :
  geocode_decode city data = Raise (HTTPException st d) ->
  exists kvs, data = PDict kvs /\ truthy (results_of kvs) = false.
Proof.
  destruct data as [| | | | | |kvs]; try (cbn; discriminate).
  rewrite geocode_decode_results.
  destruct (truthy (results_of kvs)) eqn:Ht; [|eauto].
  intros H. exfalso. revert H.
  destruct (getitem_int (results_of kvs) 0) as [hit|e] eqn:Hi; cbn [rbind].
  - destruct (getitem_str hit "name") as [n|e] eqn:Hn; cbn [rbind].
    + destruct (getitem_str_ok_inv _ _ _ Hn) as (hk & -> & _). cbn [get_method].
      destruct (dict_lookup "country" hk); cbn [rbind getitem_str];
        (destruct (dict_lookup "latitude" hk); cbn [rbind]; [|discriminate];
         destruct (dict_lookup "longitude" hk); discriminate).
    + destruct (getitem_str_catchable _ _ _ Hn) as (b & -> & _). discriminate.
  - destruct (getitem_int_catchable _ _ _ Hi) as (b & -> & _). discriminate.
Qed.

(** X4. [geocode] raises [HTTPException] 404 exactly when the upstream
    answers 200 with a JSON object whose [results] is absent or falsy: null,
    an empty list, but also [false], [0], an empty string or an empty
    object. *)
Theorem geocode_404_iff :
  forall city w,
    (exists d, fst (geocode city w) = Raise (HTTPException 404 d))
    <-> (exists kvs,
            object_of (upstream w (geocode_request city)) = Some kvs
            /\ truthy (results_of kvs) = false).
Proof.
  intros city w. rewrite geocode_full. cbn [fst]. split.
  - intros [d H].
    destruct (object_of (upstream w (geocode_request city))) as [kvs|] eqn:Ho.
    + rewrite (answer_object _ _ _ Ho) in H.
      destruct (geocode_decode_http _ _ _ _ H) as (kvs' & [= <-] & Ht). eauto.
    + exfalso. revert H Ho. unfold answer_to, object_of.
      destruct (upstream w (geocode_request city)) as [r|h].
      * destruct (Z.eqb (status_code r) 200); [|discriminate].
        destruct (json_body r) as [data|]; [|discriminate].
        intros H. destruct (geocode_decode_http _ _ _ _ H) as (kvs & -> & _).
        discriminate.
      * destruct (is_TimeoutException h); [discriminate|].
        destruct (is_HTTPError h); discriminate.
  - intros (kvs & Ho & Ht). rewrite (answer_object _ _ _ Ho).
    rewrite geocode_decode_results, Ht. eauto.
Qed.

(** X5. When the upstream answers 200 with a JSON object whose [results] is
    a non-empty list, [geocode] returns exactly when the first entry is an
    object holding [name], [latitude] and [longitude]; the location returned
    holds these three values unchanged, and as country the value of
    [country] when the key is present (a null included) and the empty string
    otherwise.  The further entries of the list play no part. *)
Theorem geocode_first_result :
  forall city w kvs hit rest loc,
    object_of (upstream w (geocode_request city)) = Some kvs ->
    results_of kvs = PList (hit :: rest) ->
    (fst (geocode city w) = Ok loc
     <-> exists hk,
           hit = PDict hk
           /\ dict_lookup "name" hk = Some (name loc)
           /\ dict_lookup "latitude" hk = Some (latitude loc)
           /\ dict_lookup "longitude" hk = Some (longitude loc)
           /\ country loc = match dict_lookup "country" hk with
                            | Some c => c
                            | None => PStr ""
                            end).
Proof.
  intros city w kvs hit rest loc Ho Hr.
  rewrite geocode_full. cbn [fst]. rewrite (answer_object _ _ _ Ho).
  rewrite geocode_decode_results, Hr. cbn [truthy getitem_int nth_error rbind].
  split.
  - intros H.
    destruct (getitem_str hit "name") as [n|e] eqn:Hn; [|discriminate H].
    destruct (getitem_str_ok_inv _ _ _ Hn) as (hk & -> & Hk).
    cbn [rbind get_method getitem_str] in H. exists hk.
    destruct (dict_lookup "country" hk); cbn [rbind] in H;
      (destruct (dict_lookup "latitude" hk); [|discriminate H];
       destruct (dict_lookup "longitude" hk); [|discriminate H];
       cbn [rbind] in H; injection H as <-; cbn; auto).
  - intros (hk & -> & Hn & Hla & Hlo & Hc). cbn [getitem_str get_method].
    rewrite Hn, Hla, Hlo. destruct loc as [n c la lo]. cbn in *. subst c.
    now destruct (dict_lookup "country" hk).
Qed.

(** ** Descriptions determine the code *)

Lemma to_int_not_nil z : Z.to_int z <> Pos Nil /\ Z.to_int z <> Neg Nil.
Proof.
  assert (H : Z.to_int z = norm (Z.to_int z))
    by (rewrite <- DecimalZ.to_of; now rewrite DecimalZ.of_to).
  rewrite H. destruct (Z.to_int z) as [d|d]; cbn.
  - split; [|discriminate]. unfold unorm.
    destruct (nzhead d); discriminate.
  - destruct (nzhead d); split; discriminate.
Qed.

Lemma str_int_inj a b : str_int a = str_int b -> a = b.
Proof.
  unfold str_int. intros H. apply DecimalZ.to_int_inj.
  destruct (to_int_not_nil a) as [Ha1 Ha2]. destruct (to_int_not_nil b) as [Hb1 Hb2].
  pose proof (NilZero.isi _ Ha1 Ha2) as Ia. pose proof (NilZero.isi _ Hb1 Hb2) as Ib.
  rewrite H in Ia. rewrite Ia in Ib. now injection Ib.
Qed.

Lemma append_closing_inj s t : s ++ ")" = t ++ ")" -> s = t.
Proof.
  revert t. induction s as [|c s IH]; intros [|c' t]; cbn; intros H.
  - reflexivity.
  - injection H as _ H. destruct t; discriminate H.
  - injection H as _ H. destruct s; discriminate H.
  - injection H as -> H. f_equal. now apply IH.
Qed.

Lemma table_get_in code t s : table_get code t = Some s -> In (code, s) t.
Proof.
  induction t as [|[c d] t IH]; cbn; [discriminate|].
  destruct (Z.eqb_spec code c) as [->|_].
  - intros [= ->]. now left.
  - intros H. right. now apply IH.
Qed.

Lemma known_descriptions_distinct :
  NoDup (map snd WMO_CODES)
  /\ forall s, In s (map snd WMO_CODES) -> String.prefix "Unknown (" s = false.
Proof.
  split.
  - change (map snd WMO_CODES) with (nodup string_dec (map snd WMO_CODES)).
    apply NoDup_nodup.
  - intros s Hs. cbn in Hs.
    repeat (destruct Hs as [<-|Hs]; [reflexivity|]). destruct Hs.
Qed.

Lemma in_snd_unique {A B} (t : list (A * B)) a a' b :
  NoDup (map snd t) -> In (a, b) t -> In (a', b) t -> a = a'.
Proof.
  induction t as [|[x y] t IH]; cbn; intros Hnd H1 H2; [destruct H1|].
  inversion Hnd as [|? ? Hnotin Hnd']; subst.
  destruct H1 as [H1|H1]; destruct H2 as [H2|H2].
  - congruence.
  - exfalso. apply Hnotin. apply (in_map snd) in H2. cbn in H2. congruence.
  - exfalso. apply Hnotin. apply (in_map snd) in H1. cbn in H1. congruence.
  - now apply IH.
Qed.

(** X6. On integers [describe_weather_code] is injective: two different
    integer codes never get the same text, whether they are in the table or
    not, so the text determines the code. *)
Theorem describe_weather_code_injective :
  forall a b,
    describe_weather_code (PInt a) = describe_weather_code (PInt b) -> a = b.
Proof.
  intros a b. rewrite !describe_int.
  destruct known_descriptions_distinct as [Hnd Hpre].
  destruct (table_get a WMO_CODES) as [sa|] eqn:Ha;
    destruct (table_get b WMO_CODES) as [sb|] eqn:Hb; intros [= H].
  - subst sb. apply table_get_in in Ha, Hb. exact (in_snd_unique _ _ _ _ Hnd Ha Hb).
  - exfalso. apply table_get_in in Ha. apply (in_map snd) in Ha. cbn [snd] in Ha.
    specialize (Hpre _ Ha). rewrite H in Hpre. cbn in Hpre.
    destruct (str_int b ++ ")"); discriminate Hpre.
  - exfalso. apply table_get_in in Hb. apply (in_map snd) in Hb. cbn [snd] in Hb.
    specialize (Hpre _ Hb). rewrite <- H in Hpre. cbn in Hpre.
    destruct (str_int a ++ ")"); discriminate Hpre.
  - cbn in H. apply append_closing_inj in H. now apply str_int_inj.
Qed.

(** ** The route handlers *)

Lemma resolve_pair city lat lon w :
  _resolve_location city (Some lat) (Some lon) w =
  (Ok (PStr (label city lat lon), PStr "", PFloat lat, PFloat lon), w).
Proof.
  unfold _resolve_location, label, city_given, coordinate_name, ret.
  destruct city as [c|]; [|reflexivity]. cbn [truthy].
  now destruct (String.eqb c "").
Qed.

Lemma resolve_city city c lat lon w :
  lat = None \/ lon = None ->
  city_given city = Some c ->
  _resolve_location city lat lon w =
  (match answer_to (geocode_decode c) (upstream w (geocode_request c)) with
   | Ok geo => Ok (name geo, country geo, latitude geo, longitude geo)
   | Raise e => Raise e
   end, (w ++ [geocode_request c])%list).
Proof.
  intros Hmiss Hc. unfold city_given in Hc.
  destruct city as [c'|]; [|discriminate Hc].
  destruct (String.eqb c' "") eqn:E; [discriminate Hc|]. injection Hc as ->.
  assert (Hrun : _resolve_location (Some c) lat lon w =
                 bind (geocode c)
                   (fun geo => ret (name geo, country geo, latitude geo, longitude geo)) w).
  { unfold _resolve_location. cbn [truthy]. rewrite E. cbn [negb].
    destruct Hmiss as [-> | ->]; [|destruct lat]; reflexivity. }
  rewrite Hrun. unfold bind. rewrite geocode_full.
  now destruct (answer_to (geocode_decode c) (upstream w (geocode_request c))).
Qed.


(** X7. A request that carries both coordinates costs exactly one upstream
    request, the forecast request for these coordinates; the geocoding
    service is not contacted even when a city is given.  The city only
    labels the answer: the response model is built from the city (or the
    text ["lat,lon"]), an empty country, the coordinates as given and what
    the forecast service answered for them. *)
Theorem handlers_with_coordinates :
  (forall city lat lon w,
      weather_current city (Some lat) (Some lon) w =
      (match fst (get_current (PFloat lat) (PFloat lon) w) with
       | Ok data =>
           construct (CurrentWeatherResponse (PStr (label city lat lon)) (PStr "")
                        (PFloat lat) (PFloat lon) data)
       | Raise e => Raised e
       end,
       (w ++ [current_request (PFloat lat) (PFloat lon)])%list))
  /\ (forall city lat lon days w,
      weather_forecast city (Some lat) (Some lon) days w =
      (match fst (get_forecast (PFloat lat) (PFloat lon) days w) with
       | Ok l =>
           construct (ForecastResponse (PStr (label city lat lon)) (PStr "")
                        (PFloat lat) (PFloat lon) l)
       | Raise e => Raised e
       end,
       (w ++ [forecast_request (PFloat lat) (PFloat lon) days])%list)).
Proof.
  split.
  - intros city lat lon w. unfold weather_current. rewrite resolve_pair.
    rewrite get_current_full. cbn [fst].
    now destruct (answer_to _ (upstream w (current_request (PFloat lat) (PFloat lon)))).
  - intros city lat lon days w. unfold weather_forecast. rewrite resolve_pair.
    rewrite get_forecast_full. cbn [fst].
    now destruct (answer_to _ (upstream w (forecast_request (PFloat lat) (PFloat lon) days))).
Qed.

(** X8. A request with a city and without a full coordinate pair first
    geocodes the city.  If that fails the handler raises the same exception
    and the forecast service is not contacted.  If it succeeds the forecast
    is requested for exactly the latitude and longitude values of the
    geocoding answer, and the response model is built from the name, country
    and coordinates of that answer. *)
Theorem handlers_with_city :
  forall city c lat lon,
    lat = None \/ lon = None ->
    city_given city = Some c ->
    (forall w,
        match geocode c w with
        | (Raise e, w1) =>
            weather_current city lat lon w = (Raised e, (w ++ [geocode_request c])%list)
        | (Ok geo, w1) =>
            weather_current city lat lon w =
            (match fst (get_current (latitude geo) (longitude geo) w1) with
             | Ok data =>
                 construct (CurrentWeatherResponse (name geo) (country geo)
                              (latitude geo) (longitude geo) data)
             | Raise e => Raised e
             end,
             (w ++ [geocode_request c;
                    current_request (latitude geo) (longitude geo)])%list)
        end)
    /\ (forall days w,
        match geocode c w with
        | (Raise e, w1) =>
            weather_forecast city lat lon days w =
            (Raised e, (w ++ [geocode_request c])%list)
        | (Ok geo, w1) =>
            weather_forecast city lat lon days w =
            (match fst (get_forecast (latitude geo) (longitude geo) days w1) with
             | Ok l =>
                 construct (ForecastResponse (name geo) (country geo)
                              (latitude geo) (longitude geo) l)
             | Raise e => Raised e
             end,
             (w ++ [geocode_request c;
                    forecast_request (latitude geo) (longitude geo) days])%list)
        end).
Proof.
  intros city c lat lon Hmiss Hc. split.
  - intros w. unfold weather_current. rewrite (resolve_city _ _ _ _ _ Hmiss Hc).
    rewrite geocode_full.
    destruct (answer_to (geocode_decode c) (upstream w (geocode_request c)))
      as [geo|e]; [|reflexivity].
    rewrite get_current_full. cbn [fst]. rewrite <- app_assoc. cbn [app].
    now destruct (answer_to _ _).
  - intros days w. unfold weather_forecast. rewrite (resolve_city _ _ _ _ _ Hmiss Hc).
    rewrite geocode_full.
    destruct (answer_to (geocode_decode c) (upstream w (geocode_request c)))
      as [geo|e]; [|reflexivity].
    rewrite get_forecast_full. cbn [fst]. rewrite <- app_assoc. cbn [app].
    now destruct (answer_to _ _).
Qed.










(** ** The payee the server advertises *)

(** X11. Every payment option of every priced route names a payee that is
    not empty.  When the guard of the [__main__] block lets the server
    start, the payee is the EVM_ADDRESS of the environment; when the guard
    stops it (the variable is unset or empty), the module has fallen back to
    the zero address. *)
Theorem advertised_payee :
  forall key rc o,
    In (key, rc) routes ->
    In o (accepts rc) ->
    pay_to o <> ""
    /\ (main_guard = None -> getenv "EVM_ADDRESS" = Some (pay_to o))
    /\ (main_guard <> None -> pay_to o = zero_address).
Proof.
  intros key rc o Hrc Ho.
  assert (Hpay : o = PAYMENT).
  { unfold routes in Hrc. destruct Hrc as [[= <- <-]|[[= <- <-]|[]]];
      cbn in Ho; destruct Ho as [<-|[]]; reflexivity. }
  subst o. unfold PAYMENT, main_guard, EVM_ADDRESS, zero_address. cbn [pay_to truthy].
  destruct (getenv "EVM_ADDRESS") as [a|].
  - destruct (String.eqb_spec a "") as [->|Hne]; cbn [negb].
    + repeat split; [discriminate|discriminate].
    + repeat split; [assumption|]. intros H. now destruct H.
  - repeat split; [discriminate|discriminate].
Qed.

(** ** The self-pay script *)



(** The script either stops before paying, with nothing requested, or goes
    through the endpoints on behalf of a payer that passed both checks. *)
Lemma self_pay_cases :
  (requested self_pay = [] /\ ended self_pay <> Finished
   /\ ~ In Done (printed self_pay))
  \/ (exists key address,
         PRIVATE_KEY = Some key /\ key <> ""
         /\ address_of_key key = Some address
         /\ (server_address = "" \/ lower address <> lower server_address)
         /\ self_pay = request_endpoints endpoints
                         [PayerWallet address; TargetAPI API_URL; Blank] []).
Proof.
  unfold self_pay. destruct PRIVATE_KEY as [key|] eqn:Hk.
  - cbn [truthy]. destruct (String.eqb_spec key "") as [->|Hne]; cbn [negb].
    + left. cbn. repeat split; [discriminate|]. intros [H|[H|[]]]; discriminate.
    + unfold main. destruct (address_of_key key) as [address|] eqn:Ha.
      * fold server_address. cbn [truthy].
        destruct (String.eqb_spec server_address "") as [Hs|Hs]; cbn [negb andb].
        -- right. exists key, address. repeat split; auto.
        -- destruct (String.eqb_spec (lower address) (lower server_address)) as [He|He].
           ++ left. cbn. repeat split; [discriminate|].
              intros [H|[H|[H|[]]]]; discriminate.
           ++ right. exists key, address. repeat split; auto.
      * left. cbn. repeat split; [discriminate|]. intros [].
  - left. cbn. repeat split; [discriminate|]. intros [H|[H|[]]]; discriminate.
Qed.

(** X12. The script refuses to pay its own server: when a private key is
    set, its address is known and EVM_ADDRESS is set to the same address in
    any letter case, the script prints the three lines of the same-wallet
    error, requests nothing and exits with status 1.  Conversely a request
    is only ever sent for a key that is set and not empty, whose address
    differs from a non-empty EVM_ADDRESS even when letter case is ignored. *)
Theorem self_pay_refuses_own_wallet :
  (forall key address,
      PRIVATE_KEY = Some key ->
      key <> "" ->
      address_of_key key = Some address ->
      server_address <> "" ->
      lower address = lower server_address ->
      self_pay = {| printed := [SameWallet; SameWalletReason; SameWalletHint];
                    requested := []; ended := SysExit 1 |})
  /\ (forall u,
      In u (requested self_pay) ->
      exists key address,
        PRIVATE_KEY = Some key /\ key <> ""
        /\ address_of_key key = Some address
        /\ (server_address = "" \/ lower address <> lower server_address)).
Proof.
  split.
  - intros key address Hk Hne Ha Hs He. unfold self_pay. rewrite Hk. cbn [truthy].
    destruct (String.eqb_spec key "") as [->|_]; [now destruct Hne|]. cbn [negb].
    unfold main. rewrite Ha. fold server_address. cbn [truthy].
    destruct (String.eqb_spec server_address ""); [contradiction|]. cbn [negb andb].
    rewrite He. now rewrite String.eqb_refl.
  - intros u Hu. destruct self_pay_cases as [(Hreq & _)|(key & address & H)].
    + rewrite Hreq in Hu. destruct Hu.
    + destruct H as (H1 & H2 & H3 & H4 & _). exists key, address. auto.
Qed.


End Client.

(** * The properties at the sample inputs *)

(** ** The tests of [test_weather.py] *)

Example test_geocode_success :
  fst (geocode (answers (ok_json tokyo_body)) "Tokyo" []) =
  Ok {| name := PStr "Tokyo"; country := PStr "Japan";
        latitude := PFloat f_35_6895; longitude := PFloat f_139_6917 |}.
Proof. reflexivity. Qed.

Example test_geocode_not_found :
  fst (geocode (answers (ok_json (PDict [("results", PNone)]))) "NonexistentCity123" []) =
  Raise (HTTPException 404 (Text "City not found: NonexistentCity123")).
Proof. reflexivity. Qed.

Example test_geocode_no_results_key :
  fst (geocode (answers (ok_json (PDict []))) "Empty" []) =
  Raise (HTTPException 404 (Text "City not found: Empty")).
Proof. reflexivity. Qed.

Example test_geocode_connection_error :
  fst (geocode (answers (Fails ConnectError)) "Tokyo" []) =
  Raise (HTTPException 502 (Text "Weather data source unavailable")).
Proof. reflexivity. Qed.

Example test_current_success :
  fst (get_current sample_repr (answers (ok_json current_body))
         (PFloat f_35_6895) (PFloat f_139_6917) []) =
  Ok {| Current.temperature_c := PFloat f_12_5;
        Current.feels_like_c := PFloat f_10_2;
        Current.humidity_pct := PInt 65;
        Current.wind_speed_kmh := PFloat f_15_3;
        Current.wind_direction_deg := PInt 270;
        Current.precipitation_mm := PFloat f_0_0;
        Current.condition := "Partly cloudy";
        Current.weather_code := PInt 2;
        Current.observation_time := PStr "2026-02-20T15:00" |}.
Proof. reflexivity. Qed.

Example test_current_malformed_response :
  fst (get_current sample_repr (answers (ok_json error_body))
         (PFloat f_35_6895) (PFloat f_139_6917) []) =
  Raise (format_error (KeyError (KStr "current"))).
Proof. reflexivity. Qed.

Example test_forecast_success :
  match fst (get_forecast sample_repr (answers (ok_json forecast_body))
               (PFloat f_35_6895) (PFloat f_139_6917) 3 []) with
  | Ok l => map Day.condition l = ["Slight rain"; "Clear sky"; "Partly cloudy"]
            /\ map Day.date l = a_time forecast_arrays
  | Raise _ => False
  end.
Proof. cbn. split; reflexivity. Qed.

Example test_forecast_malformed_response :
  fst (get_forecast sample_repr (answers (ok_json error_body))
         (PFloat f_35_6895) (PFloat f_139_6917) 3 []) =
  Raise (format_error (KeyError (KStr "daily"))).
Proof. reflexivity. Qed.

(** ** Faults that reach the caller unmapped *)

(** C2. [geocode] lets the [KeyError] of a first result without [name]
    escape, and an answer that is not a JSON object raise [AttributeError];
    all three operations let the decode error of a 200 answer whose body is
    not JSON escape.  None of these is an [HTTPException]. *)
Theorem raw_faults_escape :
  fst (geocode (answers (ok_json nameless_body)) "Tokyo" []) =
    Raise (Builtin (KeyError (KStr "name")))
  /\ fst (geocode (answers (ok_json (PList []))) "Tokyo" []) =
       Raise (Builtin AttributeError)
  /\ fst (geocode (answers not_json) "Tokyo" []) =
       Raise (Builtin JSONDecodeError)
  /\ fst (get_current sample_repr (answers not_json)
            (PFloat f_35_6895) (PFloat f_139_6917) []) =
       Raise (Builtin JSONDecodeError)
  /\ fst (get_forecast sample_repr (answers not_json)
            (PFloat f_35_6895) (PFloat f_139_6917) 3 []) =
       Raise (Builtin JSONDecodeError).
Proof. repeat split. Qed.

(** ** The weather-code table *)

Lemma describe_weather_code_spec_witness :
  In (61, "Slight rain") WMO_CODES
  /\ describe_weather_code sample_repr (PInt 61) = Ok "Slight rain"
  /\ ~ In 999 (map fst WMO_CODES)
  /\ describe_weather_code sample_repr (PInt 999) = Ok "Unknown (999)".
Proof.
  assert (Hin : In (61, "Slight rain") WMO_CODES)
    by (unfold WMO_CODES; do 11 right; left; reflexivity).
  assert (Hout : ~ In 999 (map fst WMO_CODES)).
  { cbn. intros H. repeat (destruct H as [H|H]; [discriminate H|]). exact H. }
  destruct (describe_weather_code_spec sample_repr) as (_ & Hknown & _ & _ & _ & Hunknown & _).
  split; [exact Hin|]. split; [exact (Hknown 61 "Slight rain" Hin)|].
  split; [exact Hout|]. exact (Hunknown 999 Hout).
Defined.

(** ** Upstream failures *)

Lemma upstream_failure_status_witness :
  upstream_failure (answers (Fails ReadTimeout) [] (geocode_request "Tokyo")) 504
  /\ fst (geocode (answers (Fails ReadTimeout)) "Tokyo" []) =
     Raise (HTTPException 504 (Text "Weather data source timeout"))
  /\ upstream_failure
       (answers (Fails ConnectError) [] (current_request (PInt 35) (PInt 139))) 502
  /\ fst (get_current sample_repr (answers (Fails ConnectError)) (PInt 35) (PInt 139) []) =
     Raise (HTTPException 502 (Text "Weather data source unavailable"))
  /\ upstream_failure
       (answers (Responds {| status_code := 500; json_body := Some (PDict []) |}) []
          (forecast_request (PInt 35) (PInt 139) 3)) 502
  /\ fst (get_forecast sample_repr
            (answers (Responds {| status_code := 500; json_body := Some (PDict []) |}))
            (PInt 35) (PInt 139) 3 []) =
     Raise (HTTPException 502 (Text "Weather data source unavailable")).
Proof.
  assert (H1 : upstream_failure (answers (Fails ReadTimeout) [] (geocode_request "Tokyo")) 504)
    by (apply deadline_exceeded; reflexivity).
  assert (H2 : upstream_failure
                 (answers (Fails ConnectError) [] (current_request (PInt 35) (PInt 139))) 502)
    by (apply connection_failed; reflexivity).
  assert (H3 : upstream_failure
                 (answers (Responds {| status_code := 500; json_body := Some (PDict []) |}) []
                    (forecast_request (PInt 35) (PInt 139) 3)) 502)
    by (apply bad_status; discriminate).
  split; [exact H1|].
  split; [exact (proj1 (upstream_failure_status sample_repr _) "Tokyo" [] 504 H1)|].
  split; [exact H2|].
  split; [exact (proj1 (proj2 (upstream_failure_status sample_repr _)) _ _ [] 502 H2)|].
  split; [exact H3|].
  exact (proj1 (proj2 (proj2 (upstream_failure_status sample_repr _))) _ _ _ [] 502 H3).
Defined.

(** ** [geocode] *)

Lemma geocode_not_found_witness :
  dict_lookup "results" [] = None
  /\ fst (geocode (answers (ok_json (PDict []))) "Atlantis" []) =
     Raise (HTTPException 404 (Text "City not found: Atlantis"))
  /\ exists r kvs hit rest,
       answers (ok_json tokyo_body) [] (geocode_request "Tokyo") = Responds r
       /\ status_code r = 200
       /\ json_body r = Some (PDict kvs)
       /\ dict_lookup "results" kvs = Some (PList (hit :: rest)).
Proof.
  split; [reflexivity|]. split.
  - apply (proj1 (geocode_not_found (answers (ok_json (PDict [])))) "Atlantis" []
             {| status_code := 200; json_body := Some (PDict []) |} []);
      [reflexivity|reflexivity|reflexivity|right; right; reflexivity].
  - apply (proj2 (geocode_not_found (answers (ok_json tokyo_body))) "Tokyo" []
             {| name := PStr "Tokyo"; country := PStr "Japan";
                latitude := PFloat f_35_6895; longitude := PFloat f_139_6917 |}).
    reflexivity.
Defined.

Lemma geocode_country_default_witness :
  fst (geocode (answers (ok_json stateless_body)) "Null Island" []) =
  Ok {| name := PStr "Null Island"; country := PStr "";
        latitude := PInt 0; longitude := PInt 0 |}.
Proof.
  apply (proj1 (geocode_country_default (answers (ok_json stateless_body))
                  "Null Island" []
                  {| status_code := 200; json_body := Some stateless_body |}
                  [("results", PList [PDict [("name", PStr "Null Island");
                                             ("latitude", PInt 0);
                                             ("longitude", PInt 0)]])]
                  [("name", PStr "Null Island"); ("latitude", PInt 0);
                   ("longitude", PInt 0)]
                  [] eq_refl eq_refl eq_refl eq_refl));
    reflexivity.
Defined.

(** ** Malformed bodies *)

(** C4, as stated, fails: a current object whose temperature is an array is
    returned with the array as temperature, and a daily object that holds an
    empty time array and lacks five of the six other arrays yields the empty
    forecast; neither call raises 502. *)
Lemma wrong_shape_and_missing_keys_returned :
  dict_lookup "temperature_2m"
    [("temperature_2m", PList [PInt 1; PInt 2])] = Some (PList [PInt 1; PInt 2])
  /\ fst (get_current sample_repr (answers (ok_json array_temperature_body))
            (PInt 35) (PInt 139) []) =
     Ok {| Current.temperature_c := PList [PInt 1; PInt 2];
           Current.feels_like_c := PFloat f_10_2;
           Current.humidity_pct := PInt 65;
           Current.wind_speed_kmh := PFloat f_15_3;
           Current.wind_direction_deg := PInt 270;
           Current.precipitation_mm := PFloat f_0_0;
           Current.condition := "Partly cloudy";
           Current.weather_code := PInt 2;
           Current.observation_time := PStr "2026-02-20T15:00" |}
  /\ dict_lookup "temperature_2m_max"
       [("time", PList []); ("weather_code", PList [PInt 3])] = None
  /\ fst (get_forecast sample_repr (answers (ok_json empty_time_codes_body))
            (PInt 35) (PInt 139) 3 []) = Ok []
  /\ (forall d, fst (get_current sample_repr (answers (ok_json array_temperature_body))
                       (PInt 35) (PInt 139) []) <> Raise (HTTPException 502 d))
  /\ (forall d, fst (get_forecast sample_repr (answers (ok_json empty_time_codes_body))
                       (PInt 35) (PInt 139) 3 []) <> Raise (HTTPException 502 d)).
Proof. repeat split; intros d; discriminate. Qed.

Lemma malformed_body_fails_closed_witness :
  current_complete error_body = false
  /\ (exists b, fst (get_current sample_repr (answers (ok_json error_body))
                       (PInt 35) (PInt 139) []) = Raise (format_error b))
  /\ daily_of error_body = None
  /\ (exists b, fst (get_forecast sample_repr (answers (ok_json error_body))
                       (PInt 35) (PInt 139) 3 []) = Raise (format_error b)).
Proof.
  split; [reflexivity|]. split.
  - apply (proj1 (proj1 (malformed_body_fails_closed sample_repr
                           (answers (ok_json error_body)))
                    (PInt 35) (PInt 139) []
                    {| status_code := 200; json_body := Some error_body |} error_body
                    eq_refl eq_refl eq_refl)).
    reflexivity.
  - split; [reflexivity|].
    apply (proj1 (proj2 (proj2 (malformed_body_fails_closed sample_repr
                                  (answers (ok_json error_body)))
                           (PInt 35) (PInt 139) 3 []
                           {| status_code := 200; json_body := Some error_body |}
                           error_body eq_refl eq_refl eq_refl))).
    reflexivity.
Defined.

(** ** Forecasts *)

(** C7, as stated, fails: with an empty time array and every other array
    absent the call returns the empty forecast instead of raising 502. *)
Lemma absent_arrays_empty_forecast :
  daily_of empty_time_body = Some [("time", PList [])]
  /\ forallb (fun k => has_key k [("time", PList [])])
       ["weather_code"; "temperature_2m_max"; "temperature_2m_min";
        "precipitation_sum"; "precipitation_probability_max"; "wind_speed_10m_max"]
     = false
  /\ fst (get_forecast sample_repr (answers (ok_json empty_time_body))
            (PInt 35) (PInt 139) 3 []) = Ok []
  /\ (forall d, fst (get_forecast sample_repr (answers (ok_json empty_time_body))
                       (PInt 35) (PInt 139) 3 []) <> Raise (HTTPException 502 d)).
Proof. repeat split; intros d; discriminate. Qed.

Lemma supplies_daily_dict (a : daily_arrays) : supplies (daily_dict a) a.
Proof. repeat split. Qed.

Lemma forecast_all_or_nothing_witness :
  exists l,
    fst (get_forecast sample_repr (answers (ok_json forecast_body))
           (PInt 35) (PInt 139) (Z.of_nat 3) []) = Ok l
    /\ List.length l = 3%nat
    /\ forall i, (i < 3)%nat ->
         exists e, nth_error l i = Some e /\ entry_at sample_repr forecast_arrays i e.
Proof.
  apply (proj1 (forecast_all_or_nothing sample_repr (answers (ok_json forecast_body)))
           (PInt 35) (PInt 139) 3%nat []
           {| status_code := 200; json_body := Some forecast_body |}
           [("daily", PDict (daily_dict forecast_arrays))]
           (daily_dict forecast_arrays) forecast_arrays
           eq_refl eq_refl eq_refl eq_refl (supplies_daily_dict forecast_arrays)).
  - repeat constructor.
  - repeat constructor.
Defined.

Lemma forecast_length_follows_time_witness :
  (exists l,
      fst (get_forecast sample_repr (answers (ok_json (body_of_arrays two_day_arrays)))
             (PInt 35) (PInt 139) 7 []) = Ok l
      /\ List.length l = 2%nat
      /\ forall i, (i < 2)%nat ->
           exists e, nth_error l i = Some e /\ entry_at sample_repr two_day_arrays i e)
  /\ (exists b,
         fst (get_forecast sample_repr
                (answers (ok_json (body_of_arrays short_wind_arrays)))
                (PInt 35) (PInt 139) 3 []) = Raise (format_error b)).
Proof.
  split.
  - apply (proj1 (proj2 (proj2 (forecast_length_follows_time sample_repr
                                  (answers (ok_json (body_of_arrays two_day_arrays)))))
                    (PInt 35) (PInt 139) 7 []
                    {| status_code := 200;
                       json_body := Some (body_of_arrays two_day_arrays) |}
                    [("daily", PDict (daily_dict two_day_arrays))]
                    (daily_dict two_day_arrays) two_day_arrays
                    eq_refl eq_refl eq_refl eq_refl (supplies_daily_dict two_day_arrays))).
    + repeat constructor.
    + intros i c Hi Hc. destruct i as [|[|i]]; cbn in Hc.
      * now injection Hc as <-.
      * now injection Hc as <-.
      * cbn in Hi. lia.
  - apply (proj2 (proj2 (proj2 (forecast_length_follows_time sample_repr
                                  (answers (ok_json (body_of_arrays short_wind_arrays)))))
                    (PInt 35) (PInt 139) 3 []
                    {| status_code := 200;
                       json_body := Some (body_of_arrays short_wind_arrays) |}
                    [("daily", PDict (daily_dict short_wind_arrays))]
                    (daily_dict short_wind_arrays) short_wind_arrays
                    eq_refl eq_refl eq_refl eq_refl
                    (supplies_daily_dict short_wind_arrays))).
    unfold all_arrays. do 6 apply Exists_cons_tl. apply Exists_cons_hd. cbn. lia.
Defined.

(** ** [_resolve_location] *)

Lemma resolve_location_spec_witness :
  _resolve_location sample_repr (answers (ok_json tokyo_body))
    None (Some f_35_6895) (Some f_139_6917) [] =
    (Ok (PStr "35.6895,139.6917", PStr "", PFloat f_35_6895, PFloat f_139_6917), [])
  /\ _resolve_location sample_repr (answers (ok_json tokyo_body))
       (Some "Tokyo") None (Some f_139_6917) [] =
     (Ok (PStr "Tokyo", PStr "Japan", PFloat f_35_6895, PFloat f_139_6917),
      [geocode_request "Tokyo"])
  /\ _resolve_location sample_repr (answers (ok_json tokyo_body))
       (Some "") (Some f_35_6895) None [] = (Raise bad_request, []).
Proof.
  pose proof (resolve_location_spec sample_repr (answers (ok_json tokyo_body)))
    as (Hpair & Hcity & Hnone).
  split; [exact (Hpair None f_35_6895 f_139_6917 [])|].
  split.
  - exact (Hcity (Some "Tokyo") "Tokyo" None (Some f_139_6917) []
             (or_introl eq_refl) eq_refl).
  - exact (Hnone (Some "") (Some f_35_6895) None [] (or_intror eq_refl) eq_refl).
Defined.

(** ** The payment gate *)

Lemma unpaid_request_challenged_witness :
  (exists rc,
      lookup_pricing no_env (method unpaid_request) (path unpaid_request) = Some rc
      /\ PaymentMiddlewareASGI no_env rejects permissive_app unpaid_request []
         = (challenge rc, [])
      /\ status (challenge rc) = 402
      /\ forall o, In o (accepts rc) ->
           exists opts info ext,
             body (challenge rc) = PaymentRequired opts info ext /\ In o opts)
  /\ PaymentMiddlewareASGI no_env rejects (app no_env permissive_app) health_request []
     = (health_check no_env, []).
Proof.
  split.
  - apply (proj1 (unpaid_request_challenged no_env rejects) permissive_app
             unpaid_request []);
      [reflexivity|left; reflexivity|discriminate].
  - apply (proj2 (unpaid_request_challenged no_env rejects) permissive_app
             health_request []); reflexivity.
Defined.

(** ** The exceptions of the operations *)

Lemma client_faults_witness :
  client_fault (HTTPException 502 (TextOf "Unexpected weather data format: "
                                     (KeyError (KStr "current"))))
  /\ client_fault (Builtin JSONDecodeError).
Proof.
  split.
  - apply (proj1 (client_faults sample_repr (answers (ok_json error_body)))
             (PInt 35) (PInt 139) []).
    reflexivity.
  - apply (proj2 (client_faults sample_repr (answers not_json))
             (PInt 35) (PInt 139) 3 []).
    reflexivity.
Defined.

Lemma geocode_faults_witness :
  geocode_fault (Builtin (KeyError (KStr "name")))
  /\ geocode_fault (HTTPException 404 (Text "City not found: Atlantis")).
Proof.
  split.
  - apply (geocode_faults (answers (ok_json nameless_body)) "Tokyo" []). reflexivity.
  - apply (geocode_faults (answers (ok_json (PDict []))) "Atlantis" []). reflexivity.
Defined.

Lemma geocode_404_iff_witness :
  exists d,
    fst (geocode (answers (ok_json (PDict [("results", PInt 0)]))) "Atlantis" [])
    = Raise (HTTPException 404 d).
Proof.
  apply (proj2 (geocode_404_iff (answers (ok_json (PDict [("results", PInt 0)])))
                  "Atlantis" [])).
  exists [("results", PInt 0)]. split; reflexivity.
Defined.

Lemma geocode_first_result_witness :
  exists hk,
    PDict [("name", PStr "Tokyo"); ("country", PStr "Japan");
           ("latitude", PFloat f_35_6895); ("longitude", PFloat f_139_6917)]
    = PDict hk
    /\ dict_lookup "name" hk = Some (PStr "Tokyo")
    /\ dict_lookup "latitude" hk = Some (PFloat f_35_6895)
    /\ dict_lookup "longitude" hk = Some (PFloat f_139_6917)
    /\ PStr "Japan" = match dict_lookup "country" hk with
                      | Some c => c
                      | None => PStr ""
                      end.
Proof.
  apply (proj1 (geocode_first_result (answers (ok_json tokyo_body)) "Tokyo" []
                  [("results",
                    PList [PDict [("name", PStr "Tokyo"); ("country", PStr "Japan");
                                  ("latitude", PFloat f_35_6895);
                                  ("longitude", PFloat f_139_6917)]])]
                  (PDict [("name", PStr "Tokyo"); ("country", PStr "Japan");
                          ("latitude", PFloat f_35_6895);
                          ("longitude", PFloat f_139_6917)])
                  []
                  {| name := PStr "Tokyo"; country := PStr "Japan";
                     latitude := PFloat f_35_6895; longitude := PFloat f_139_6917 |}
                  eq_refl eq_refl)).
  reflexivity.
Defined.

Lemma describe_weather_code_injective_witness : 95 = 95.
Proof.
  apply (describe_weather_code_injective sample_repr 95 95). reflexivity.
Defined.

(** ** The route handlers *)

Lemma handlers_with_city_witness :
  weather_current sample_repr
    (two_services (ok_json tokyo_body) (ok_json current_body))
    kept_current keep_current (Some "tokyo") None None [] =
  (Returned (PStr "Tokyo", PStr "Japan", PFloat f_35_6895, PFloat f_139_6917,
             {| Current.temperature_c := PFloat f_12_5;
                Current.feels_like_c := PFloat f_10_2;
                Current.humidity_pct := PInt 65;
                Current.wind_speed_kmh := PFloat f_15_3;
                Current.wind_direction_deg := PInt 270;
                Current.precipitation_mm := PFloat f_0_0;
                Current.condition := "Partly cloudy";
                Current.weather_code := PInt 2;
                Current.observation_time := PStr "2026-02-20T15:00" |}),
   [geocode_request "tokyo";
    current_request (PFloat f_35_6895) (PFloat f_139_6917)])
  /\ weather_forecast sample_repr
       (two_services (Fails ReadTimeout) (ok_json forecast_body))
       kept_forecast keep_forecast (Some "tokyo") None None 3 [] =
     (Raised (HTTPException 504 (Text "Weather data source timeout")),
      [geocode_request "tokyo"]).
Proof.
  split.
  - exact (proj1 (handlers_with_city sample_repr
                    (two_services (ok_json tokyo_body) (ok_json current_body))
                    kept_current keep_current kept_forecast keep_forecast
                    (Some "tokyo") "tokyo" None None (or_introl eq_refl) eq_refl) []).
  - exact (proj2 (handlers_with_city sample_repr
                    (two_services (Fails ReadTimeout) (ok_json forecast_body))
                    kept_current keep_current kept_forecast keep_forecast
                    (Some "tokyo") "tokyo" None None (or_introl eq_refl) eq_refl) 3 []).
Defined.


(** ** The payee and the script *)

Lemma advertised_payee_witness :
  pay_to (PAYMENT set_address) <> ""
  /\ (main_guard set_address = None ->
      set_address "EVM_ADDRESS" = Some (pay_to (PAYMENT set_address)))
  /\ (main_guard set_address <> None -> pay_to (PAYMENT set_address) = zero_address).
Proof.
  apply (advertised_payee set_address "GET /weather/current"
           {| accepts := [PAYMENT set_address];
              mime_type := "application/json";
              description :=
                "Get current weather conditions for any city worldwide. "
                ++ "Returns temperature, humidity, wind, precipitation, and condition description. "
                ++ "Specify city name (geocoded automatically) or latitude/longitude coordinates.";
              extensions := bazaar [("city", PStr "Tokyo")] current_example |}
           (PAYMENT set_address)).
  - left. reflexivity.
  - left. reflexivity.
Defined.

Lemma self_pay_refuses_own_wallet_witness :
  self_pay script_env own_wallet unhelpful_server =
  {| printed := [SameWallet; SameWalletReason; SameWalletHint];
     requested := []; ended := SysExit 1 |}.
Proof.
  apply (proj1 (self_pay_refuses_own_wallet script_env own_wallet unhelpful_server)
           "0x01" "0x7E5F4552091A69125d5DfCb7b8C2659029395Bdf").
  - reflexivity.
  - discriminate.
  - reflexivity.
  - discriminate.
  - reflexivity.
Defined.

